(** * Longitudinal planner (selfdrive/controls/lib/longitudinal_planner.py)

    A shallow embedding of the planner's per-cycle logic and the properties
    its specification states about it.

    Conventions of the embedding:
    - Python floats are idealised as exact rationals ([Q]); every comparison
      the program makes is the boolean comparison [Py.lt], and [min]/[max]
      follow CPython (the first argument wins unless a later one is strictly
      smaller, resp. larger).
    - A Python exception (IndexError, ZeroDivisionError, ValueError) aborts
      the cycle; it is modelled by [None] in the [option] monad.
    - Collaborators whose code lives outside this file of the repository
      (the MPC solvers, the FCW checker, the speed smoother, [math.sqrt],
      unit-conversion constants) are type classes the planner is written
      over. *)

From Stdlib Require Import QArith Qabs Qminmax Qcanon Lqa Lia ZArith Zdivisibility.
From Stdlib Require Import List Bool String.
Import ListNotations.

Local Open Scope Q_scope.

(** ** Python primitives *)

Module Py.

Definition lt (a b : Q) : bool :=
  match a ?= b with Lt => true | _ => false end.

Definition gt (a b : Q) : bool := lt b a.

Definition ge (a b : Q) : bool := negb (lt a b).

(** [min(a, b)]: [b] replaces [a] only when [b < a]. *)
Definition min2 (a b : Q) : Q := if lt b a then b else a.

(** [max(a, b)]: [b] replaces [a] only when [b > a]. *)
Definition max2 (a b : Q) : Q := if gt b a then b else a.

(** [min(iterable, key=f)]; raises ValueError on an empty iterable. *)
Definition min_key {K : Type} (key : K -> Q) (l : list K) : option K :=
  match l with
  | [] => None
  | k0 :: rest =>
      Some (fold_left (fun best k => if lt (key k) (key best) then k else best)
                      rest k0)
  end.

(** [min(list)]. *)
Definition min_list (l : list Q) : option Q := min_key (fun x => x) l.

(** [l[i]] for a non-negative [i]; IndexError is [None]. *)
Definition index {A : Type} (l : list A) (i : nat) : option A := nth_error l i.

(** [l[-k]] for [k >= 1]. *)
Definition index_back {A : Type} (l : list A) (k : nat) : option A :=
  match k with
  | O => None
  | S k' => nth_error (rev l) k'
  end.

(** [a / b] on floats; ZeroDivisionError is [None]. *)
Definition div (a b : Q) : option Q :=
  if Qeq_bool b 0 then None else Some (a / b).

(** [sorted(l, key=f)]: a stable sort. *)
Fixpoint insert_sorted {K : Type} (key : K -> Q) (x : K) (l : list K) : list K :=
  match l with
  | [] => [x]
  | y :: l' => if lt (key y) (key x) then y :: insert_sorted key x l'
               else x :: l
  end.

Definition sorted {K : Type} (key : K -> Q) (l : list K) : list K :=
  fold_right (insert_sorted key) [] l.

(** A dict as the list of its items in insertion order. *)
Definition dict := list (string * Q).

Fixpoint dict_set (d : dict) (k : string) (v : Q) : dict :=
  match d with
  | [] => [(k, v)]
  | (k', v') :: d' => if String.eqb k' k then (k', v) :: d'
                      else (k', v') :: dict_set d' k v
  end.

Fixpoint dict_get (d : dict) (k : string) : option Q :=
  match d with
  | [] => None
  | (k', v') :: d' => if String.eqb k' k then Some v' else dict_get d' k
  end.

Definition dict_keys (d : dict) : list string := map fst d.

(** [d.get] as the key function of [min(d, key=d.get)]; it is only applied
    to keys of [d]. *)
Definition dict_get_key (d : dict) (k : string) : Q :=
  match dict_get d k with Some v => v | None => 0 end.

(** [for x in l: body], threading an accumulator through a fallible body. *)
Fixpoint for_each {A S : Type} (l : list A) (body : S -> A -> option S) (s : S)
  : option S :=
  match l with
  | [] => Some s
  | x :: l' => match body s x with
               | Some s' => for_each l' body s'
               | None => None
               end
  end.

(** [[f(x) for x in l]] with a fallible [f]. *)
Fixpoint comprehension {A B : Type} (f : A -> option B) (l : list A)
  : option (list B) :=
  match l with
  | [] => Some []
  | x :: l' => match f x with
               | Some y => match comprehension f l' with
                           | Some ys => Some (y :: ys)
                           | None => None
                           end
               | None => None
               end
  end.

End Py.

Notation "x <- e ;; k" :=
  (match e with Some x => k | None => None end)
  (at level 61, e at next level, right associativity).

Notation "' p <- e ;; k" :=
  (match e with Some p => k | None => None end)
  (at level 61, p pattern, e at next level, right associativity).

(** ** Module constants *)

Definition LON_MPC_STEP : Q := 0.2.
Definition AWARENESS_DECEL : Q := -0.2.

Definition _A_CRUISE_MIN_V_FOLLOWING : list Q := [-2.7; -2.4; -2.0; -1.4; -0.5].
Definition _A_CRUISE_MIN_V : list Q := [-1.0; -0.8; -0.67; -0.5; -0.30].
Definition _A_CRUISE_MIN_BP : list Q := [0; 5; 10; 20; 40].

Definition _A_CRUISE_MAX_V : list Q := [1.2; 1.2; 0.65; 0.4].
Definition _A_CRUISE_MAX_V_FOLLOWING : list Q := [1.6; 1.6; 0.65; 0.4].
Definition _A_CRUISE_MAX_BP : list Q := [0; 6.4; 22.5; 40].

Definition _A_TOTAL_MAX_V : list Q := [1.7; 3.2].
Definition _A_TOTAL_MAX_BP : list Q := [20; 40].

(** ** [common.numpy_fast.interp] *)

(** Modelled from the spec: the search of [interp] past the first
    breakpoint, [(xlo, flo)] being the last breakpoint passed; between two
    breakpoints the value is interpolated linearly, past the last one it is
    the last table value. *)
Fixpoint interp_from (x xlo flo : Q) (xp fp : list Q) : Q :=
  match xp, fp with
  | xhi :: xp', fhi :: fp' =>
      if Py.gt x xhi then interp_from x xhi fhi xp' fp'
      else (x - xlo) * (fhi - flo) / (xhi - xlo) + flo
  | _, _ => flo
  end.

(** Modelled from the spec: [interp] of [common/numpy_fast.py], which is not
    among the source files.  The specification describes it as piecewise-linear
    interpolation of a value against a breakpoint table, clamped to the table's
    ends outside the breakpoints' range. *)
Definition interp (x : Q) (xp fp : list Q) : Q :=
  match xp, fp with
  | x0 :: xp', f0 :: fp' =>
      if Py.gt x x0 then interp_from x x0 f0 xp' fp' else f0
  | _, _ => 0
  end.

(** [calc_cruise_accel_limits]; the 2x1 array is the pair (min, max). *)
Definition calc_cruise_accel_limits (v_ego : Q) (following : bool) : Q * Q :=
  if following then
    let a_cruise_min := interp v_ego _A_CRUISE_MIN_BP _A_CRUISE_MIN_V_FOLLOWING in
    let a_cruise_max := interp v_ego _A_CRUISE_MAX_BP _A_CRUISE_MAX_V_FOLLOWING in
    (a_cruise_min, a_cruise_max)
  else
    let a_cruise_min := interp v_ego _A_CRUISE_MIN_BP _A_CRUISE_MIN_V in
    let a_cruise_max := interp v_ego _A_CRUISE_MAX_BP _A_CRUISE_MAX_V in
    (a_cruise_min, a_cruise_max).

(** ** Messages read by the planner *)

(** Modelled from the spec: the [LongCtrlState] enumeration of
    [selfdrive/controls/lib/longcontrol.py], which is not among the source
    files; the specification lists the control modes pid-following, starting,
    stopping and one other. *)
Inductive LongCtrlState : Type := off | pid | stopping | starting.

Definition LongCtrlState_eqb (a b : LongCtrlState) : bool :=
  match a, b with
  | off, off | pid, pid | stopping, stopping | starting, starting => true
  | _, _ => false
  end.

Record CarParams : Type := {
  sccBus : Z;
  steerRatio : Q;
  wheelbase : Q;
  minSpeedCan : Q;
  startAccel : Q;
  radarTimeStep : Q
}.

Record CarState : Type := {
  vEgo : Q;
  aEgo : Q;
  vSetDis : Q;
  brakePressed : bool;
  gasPressed : bool;
  steeringAngleDeg : Q;
  leftBlinker : bool;
  rightBlinker : bool
}.

Record ControlsState : Type := {
  longControlState : LongCtrlState;
  vCruise : Q;
  forceDecel : bool;
  active : bool
}.

Record LeadData : Type := {
  status : bool;
  dRel : Q;
  yRel : Q;
  vRel : Q;
  vLead : Q;
  vLeadK : Q;
  aLeadK : Q;
  vLat : Q;
  lead_fcw : bool
}.

Record RadarState : Type := {
  leadOne : LeadData;
  leadTwo : LeadData
}.

Record XYZT : Type := { x : list Q }.

Record ModelDataV2 : Type := {
  position : XYZT;
  velocity : XYZT
}.

(** The view of the [SubMaster] the planner reads. *)
Record SubMaster : Type := {
  carState : CarState;
  controlsState : ControlsState;
  radarState : RadarState;
  modelV2 : ModelDataV2;
  alive_modelV2 : bool;
  (** [all_alive_and_valid(['carState', 'controlsState', 'radarState'])] *)
  all_alive_and_valid : bool;
  logMonoTime_modelV2 : Z;
  logMonoTime_radarState : Z;
  rcv_time_radarState : Q
}.

(** What a cycle reads from outside the message bus: the clock and the
    [Params] store. *)
Record Environment : Type := {
  sec_since_boot : Q;
  OpkrMapEnable : bool;
  ModelLongEnabled : bool;
  LimitSetSpeedCamera : option string;
  LimitSetSpeedCameraDist : option string
}.

(** The unit conversions of [selfdrive.config.Conversions]. *)
Record Conversions : Type := {
  KPH_TO_MS : Q;
  MS_TO_KPH : Q;
  DEG_TO_RAD : Q
}.

(** ** Collaborators, by interface *)

Module LongMpc.

(** [LongitudinalMpc]: a lead-following solver with its solution trace. *)
Class Interface (M Sol : Type) : Type := {
  new : Z -> M;
  v_mpc : M -> Q;
  a_mpc : M -> Q;
  v_mpc_future : M -> Q;
  prev_lead_status : M -> bool;
  new_lead : M -> bool;
  mpc_solution : M -> Sol;
  set_cur_state : M -> Q -> Q -> M;
  update : M -> CarState -> LeadData -> M
}.

End LongMpc.

Module LongMpcModel.

(** [LongitudinalMpcModel]: the solver fed by the resampled model path. *)
Class Interface (MM : Type) : Type := {
  new : MM;
  valid : MM -> bool;
  v_mpc : MM -> Q;
  a_mpc : MM -> Q;
  v_mpc_future : MM -> Q;
  set_cur_state : MM -> Q -> Q -> MM;
  update : MM -> Q -> Q -> list Q -> list Q -> list Q -> MM
}.

End LongMpcModel.

Module FCW.

(** The arguments of [FCWChecker.update], in call order. *)
Record Args (Sol : Type) : Type := {
  mpc_solution : Sol;
  cur_time : Q;
  active : bool;
  v_ego : Q;
  a_ego : Q;
  x_lead : Q;
  v_lead : Q;
  a_lead : Q;
  y_lead : Q;
  vlat_lead : Q;
  fcw_lead : bool;
  blinkers : bool
}.

Arguments mpc_solution {Sol} _.
Arguments cur_time {Sol} _.
Arguments active {Sol} _.
Arguments v_ego {Sol} _.
Arguments a_ego {Sol} _.
Arguments blinkers {Sol} _.

(** [FCWChecker]: [update] returns the warner's verdict and its new state. *)
Class Interface (F Sol : Type) : Type := {
  new : F;
  reset_lead : F -> Q -> F;
  update : F -> Args Sol -> F * bool
}.

End FCW.

(** ** ModelMpcHelper *)

(** [model_t]: the 33 time stamps of the model's predictions. *)
Definition model_t : list Q :=
  map (fun i : nat => inject_Z (Z.of_nat i) ^ 2 / 102.4) (seq 0 33).

(** [mpc_t]: the ten one-second steps the model MPC takes. *)
Definition mpc_t : list nat := seq 0 10.

(** [model_t_idx]: for each MPC step, the index of the nearest model time
    stamp (the head of the indices sorted by distance to the step). *)
Definition model_t_idx : list nat :=
  map (fun idx : nat =>
         let keys := map (fun t => Qabs (inject_Z (Z.of_nat idx) - t)) model_t in
         hd 0%nat (Py.sorted (fun i => nth i keys 0)
                             (seq 0 (List.length model_t))))
      mpc_t.

Definition accel_step (speeds : list Q) (accelerations : list Q) (t : nat)
  : option (list Q) :=
  if (0 <? t)%nat && (t <? 9)%nat then
    hi <- Py.index speeds (t + 1) ;;
    lo <- Py.index speeds (t - 1) ;;
    Some (accelerations ++ [(hi - lo) / 2])
  else Some accelerations.

(** [ModelMpcHelper.convert_data]: (distances, speeds, accelerations). *)
Definition convert_data (sm : SubMaster)
  : option (list Q * list Q * list Q) :=
  let modelV2 := modelV2 sm in
  if negb (alive_modelV2 sm) || (List.length (x (position modelV2)) =? 0)%nat
  then Some ([], [], [])
  else
    speeds <- Py.comprehension (Py.index (x (velocity modelV2))) model_t_idx ;;
    distances <- Py.comprehension (Py.index (x (position modelV2))) model_t_idx ;;
    accelerations <- Py.for_each mpc_t (accel_step speeds) [] ;;
    (* Extrapolate forward and backward at edges *)
    last1 <- Py.index_back accelerations 1 ;;
    last2 <- Py.index_back accelerations 2 ;;
    let accelerations := accelerations ++ [last1 - (last2 - last1)] in
    a0 <- Py.index accelerations 0 ;;
    a1 <- Py.index accelerations 1 ;;
    let accelerations := (a0 - (a1 - a0)) :: accelerations in
    Some (distances, speeds, accelerations).

(** ** Planner state *)

(** The speed-camera bookkeeping fields of [Planner]
    ([self.target_speed_map*]), kept together. *)
Record SpeedMap : Type := {
  target_speed_map : Z;
  target_speed_map_counter : Z;
  target_speed_map_counter_check : bool;
  target_speed_map_counter1 : Z;
  target_speed_map_counter2 : Z;
  target_speed_map_counter3 : Z;
  target_speed_map_dist : Z;
  target_speed_map_block : bool;
  target_speed_map_sign : bool
}.

Record Planner {M MM F : Type} : Type := {
  self_CP : CarParams;
  mpc1 : M;
  mpc2 : M;
  mpc_model : MM;
  v_acc_start : Q;
  a_acc_start : Q;
  v_acc_next : Q;
  a_acc_next : Q;
  v_acc : Q;
  v_acc_future : Q;
  a_acc : Q;
  v_cruise : Q;
  a_cruise : Q;
  longitudinalPlanSource : string;
  fcw_checker : F;
  fcw : bool;
  first_loop : bool;
  speed_map : SpeedMap;
  tartget_speed_offset : Z;
  vego : Q
}.

Arguments Planner : clear implicits.

(** The published [longitudinalPlan] message. *)
Record LongitudinalPlan : Type := {
  plan_valid : bool;
  mdMonoTime : Z;
  radarStateMonoTime : Z;
  vCruise_out : Q;
  aCruise : Q;
  vStart : Q;
  aStart : Q;
  vTarget : Q;
  aTarget : Q;
  vTargetFuture : Q;
  hasLead : bool;
  longitudinalPlanSource_out : string;
  fcw_out : bool;
  processingDelay : Q;
  dRel1 : Q;
  yRel1 : Q;
  vRel1 : Q;
  dRel2 : Q;
  yRel2 : Q;
  vRel2 : Q;
  status2 : bool;
  targetSpeedCamera : Q;
  targetSpeedCameraDist : Q
}.

(** What the planner imports besides its collaborators' classes. *)
Class Externals : Type := {
  (** [math.sqrt]; the planner only applies it to a value clamped at zero. *)
  sqrt : Q -> Q;
  (** [speed_smoother(v_start, a_start, v_target, a_max, a_min, j_max, j_min, dt)] *)
  speed_smoother : Q -> Q -> Q -> Q -> Q -> Q -> Q -> Q -> Q * Q;
  (** [selfdrive.config.Conversions] *)
  CV : Conversions;
  (** [V_CRUISE_MAX] of [selfdrive.controls.lib.drive_helpers] *)
  V_CRUISE_MAX : Q;
  (** [int(float(s.rstrip('\n')))]; ValueError is [None]. *)
  int_of_float_string : string -> option Z
}.

(** ** The planner, over its collaborators *)

Section PlannerCode.

Context {M MM F Sol : Type}.
Context {MpcI : LongMpc.Interface M Sol}.
Context {ModelI : LongMpcModel.Interface MM}.
Context {FcwI : FCW.Interface F Sol}.

Context {Ext : Externals}.

Definition limit_accel_in_turns (v_ego angle_steers : Q) (a_target : Q * Q)
  (CP : CarParams) : option (Q * Q) :=
  let a_total_max := interp v_ego _A_TOTAL_MAX_BP _A_TOTAL_MAX_V in
  a_y <- Py.div (v_ego ^ 2 * angle_steers * DEG_TO_RAD CV)
                (steerRatio CP * wheelbase CP) ;;
  let a_x_allowed := sqrt (Py.max2 (a_total_max ^ 2 - a_y ^ 2) 0) in
  Some (fst a_target, Py.min2 (snd a_target) a_x_allowed).

(** [Planner.__init__]; [offset] is the stored [OpkrSpeedLimitOffset]. *)
Definition Planner_init (CP : CarParams) (offset : Z) : Planner M MM F :=
  {| self_CP := CP;
     mpc1 := LongMpc.new 1;
     mpc2 := LongMpc.new 2;
     mpc_model := LongMpcModel.new;
     v_acc_start := 0.0;
     a_acc_start := 0.0;
     v_acc_next := 0.0;
     a_acc_next := 0.0;
     v_acc := 0.0;
     v_acc_future := 0.0;
     a_acc := 0.0;
     v_cruise := 0.0;
     a_cruise := 0.0;
     longitudinalPlanSource := "cruise";
     fcw_checker := FCW.new;
     fcw := false;
     first_loop := true;
     speed_map := {| target_speed_map := 0;
                     target_speed_map_counter := 0;
                     target_speed_map_counter_check := false;
                     target_speed_map_counter1 := 0;
                     target_speed_map_counter2 := 0;
                     target_speed_map_counter3 := 0;
                     target_speed_map_dist := 0;
                     target_speed_map_block := false;
                     target_speed_map_sign := false |};
     tartget_speed_offset := offset;
     vego := 0 |}.

(** The dict [solutions] built by [choose_solution] when enabled. *)
Definition solutions_of (self : Planner M MM F) (model_enabled : bool) : Py.dict :=
  let solutions := [("cruise"%string, v_cruise self)] in
  let solutions :=
    if LongMpc.prev_lead_status (mpc1 self)
    then Py.dict_set solutions "mpc1" (LongMpc.v_mpc (mpc1 self))
    else solutions in
  let solutions :=
    if LongMpc.prev_lead_status (mpc2 self)
    then Py.dict_set solutions "mpc2" (LongMpc.v_mpc (mpc2 self))
    else solutions in
  if LongMpcModel.valid (mpc_model self) && model_enabled
  then Py.dict_set solutions "model" (LongMpcModel.v_mpc (mpc_model self))
  else solutions.

Definition choose_solution (self : Planner M MM F) (v_cruise_setpoint : Q)
  (enabled model_enabled : bool) : option (Planner M MM F) :=
  let possible_futures :=
    [LongMpc.v_mpc_future (mpc1 self); LongMpc.v_mpc_future (mpc2 self);
     v_cruise_setpoint] in
  '(source, v, a, possible_futures) <-
    (if enabled then
       let solutions := solutions_of self model_enabled in
       let possible_futures :=
         if LongMpcModel.valid (mpc_model self) && model_enabled
         then possible_futures ++ [LongMpcModel.v_mpc_future (mpc_model self)]
         else possible_futures in
       slowest <- Py.min_key (Py.dict_get_key solutions) (Py.dict_keys solutions) ;;
       (* Choose lowest of MPC and cruise *)
       let '(v, a) :=
         if String.eqb slowest "mpc1" then
           (LongMpc.v_mpc (mpc1 self), LongMpc.a_mpc (mpc1 self))
         else if String.eqb slowest "mpc2" then
           (LongMpc.v_mpc (mpc2 self), LongMpc.a_mpc (mpc2 self))
         else if String.eqb slowest "cruise" then
           (v_cruise self, a_cruise self)
         else if String.eqb slowest "model" then
           (LongMpcModel.v_mpc (mpc_model self), LongMpcModel.a_mpc (mpc_model self))
         else (v_acc self, a_acc self) in
       Some (slowest, v, a, possible_futures)
     else Some (longitudinalPlanSource self, v_acc self, a_acc self,
                possible_futures)) ;;
  future <- Py.min_list possible_futures ;;
  Some {| self_CP := self_CP self;
          mpc1 := mpc1 self;
          mpc2 := mpc2 self;
          mpc_model := mpc_model self;
          v_acc_start := v_acc_start self;
          a_acc_start := a_acc_start self;
          v_acc_next := v_acc_next self;
          a_acc_next := a_acc_next self;
          v_acc := v;
          v_acc_future := future;
          a_acc := a;
          v_cruise := v_cruise self;
          a_cruise := a_cruise self;
          longitudinalPlanSource := source;
          fcw_checker := fcw_checker self;
          fcw := fcw self;
          first_loop := first_loop self;
          speed_map := speed_map self;
          tartget_speed_offset := tartget_speed_offset self;
          vego := vego self |}.

(** The speed-camera block of [update] (lines 189-234).  The shell commands
    it launches act outside the planner and leave its state alone. *)
Definition update_speed_map (m : SpeedMap) (env : Environment) : option SpeedMap :=
  if OpkrMapEnable env then
    let counter := (target_speed_map_counter m + 1)%Z in
    if (50 + target_speed_map_counter1 m <=? counter)%Z
       && Bool.eqb (target_speed_map_counter_check m) false then
      let counter3 := (target_speed_map_counter3 m + 1)%Z in
      let counter3 := if (2 <? counter3)%Z then 0%Z else counter3 in
      Some {| target_speed_map := target_speed_map m;
              target_speed_map_counter := counter;
              target_speed_map_counter_check := true;
              target_speed_map_counter1 := target_speed_map_counter1 m;
              target_speed_map_counter2 := target_speed_map_counter2 m;
              target_speed_map_counter3 := counter3;
              target_speed_map_dist := target_speed_map_dist m;
              target_speed_map_block := target_speed_map_block m;
              target_speed_map_sign := target_speed_map_sign m |}
    else if (75 + target_speed_map_counter1 m <=? counter)%Z then
      let mapspeed := LimitSetSpeedCamera env in
      let mapspeeddist := LimitSetSpeedCameraDist env in
      match mapspeed, mapspeeddist with
      | Some mapspeed, Some mapspeeddist =>
          mapspeed <- int_of_float_string mapspeed ;;
          mapspeeddist <- int_of_float_string mapspeeddist ;;
          if (29 <? mapspeed)%Z then
            Some {| target_speed_map := mapspeed;
                    target_speed_map_counter := 0;
                    target_speed_map_counter_check := false;
                    target_speed_map_counter1 := 80;
                    target_speed_map_counter2 := target_speed_map_counter2 m;
                    target_speed_map_counter3 := target_speed_map_counter3 m;
                    target_speed_map_dist := mapspeeddist;
                    target_speed_map_block :=
                      if (1001 <? mapspeeddist)%Z then true
                      else target_speed_map_block m;
                    target_speed_map_sign := target_speed_map_sign m |}
          else
            Some {| target_speed_map := 0;
                    target_speed_map_counter := 0;
                    target_speed_map_counter_check := false;
                    target_speed_map_counter1 := 0;
                    target_speed_map_counter2 := target_speed_map_counter2 m;
                    target_speed_map_counter3 := target_speed_map_counter3 m;
                    target_speed_map_dist := 0;
                    target_speed_map_block := false;
                    target_speed_map_sign := target_speed_map_sign m |}
      | mapspeed, mapspeeddist =>
          if match mapspeed, mapspeeddist with None, None => true | _, _ => false end
             && (target_speed_map_counter2 m <? 2)%Z then
            Some {| target_speed_map := 0;
                    target_speed_map_counter := 51;
                    target_speed_map_counter_check := true;
                    target_speed_map_counter1 := 0;
                    target_speed_map_counter2 := target_speed_map_counter2 m + 1;
                    target_speed_map_counter3 := target_speed_map_counter3 m;
                    target_speed_map_dist := 0;
                    target_speed_map_block := false;
                    target_speed_map_sign := false |}
          else
            Some {| target_speed_map := 0;
                    target_speed_map_counter := 49;
                    target_speed_map_counter_check := false;
                    target_speed_map_counter1 := 0;
                    target_speed_map_counter2 := 0;
                    target_speed_map_counter3 := target_speed_map_counter3 m;
                    target_speed_map_dist := 0;
                    target_speed_map_block := false;
                    target_speed_map_sign := false |}
      end
    else
      Some {| target_speed_map := target_speed_map m;
              target_speed_map_counter := counter;
              target_speed_map_counter_check := target_speed_map_counter_check m;
              target_speed_map_counter1 := target_speed_map_counter1 m;
              target_speed_map_counter2 := target_speed_map_counter2 m;
              target_speed_map_counter3 := target_speed_map_counter3 m;
              target_speed_map_dist := target_speed_map_dist m;
              target_speed_map_block := target_speed_map_block m;
              target_speed_map_sign := target_speed_map_sign m |}
  else Some m.

(** The guard of the cruise branch of [update] (line 237). *)
Definition engaged_normal (enabled first_loop : bool) (cs : CarState) : bool :=
  enabled && negb first_loop && negb (brakePressed cs) && negb (gasPressed cs).

Definition is_enabled (long_control_state : LongCtrlState) : bool :=
  LongCtrlState_eqb long_control_state pid
  || LongCtrlState_eqb long_control_state stopping.

(** The cruise setpoint of a cycle, in m/s (lines 171-178). *)
Definition cruise_setpoint (sm : SubMaster) (CP : CarParams) : Q :=
  let v_cruise_kph :=
    if (sccBus CP =? 2)%Z then vSetDis (carState sm)
    else vCruise (controlsState sm) in
  let v_cruise_kph := Py.min2 v_cruise_kph V_CRUISE_MAX in
  v_cruise_kph * KPH_TO_MS CV.

(** The arguments [update] passes to the FCW checker (lines 286-292). *)
Definition fcw_args (mpc1 : M) (sm : SubMaster) (cur_time : Q) : FCW.Args Sol :=
  let lead_1 := leadOne (radarState sm) in
  let blinkers := leftBlinker (carState sm) || rightBlinker (carState sm) in
  {| FCW.mpc_solution := LongMpc.mpc_solution mpc1;
     FCW.cur_time := cur_time;
     FCW.active := active (controlsState sm);
     FCW.v_ego := vEgo (carState sm);
     FCW.a_ego := aEgo (carState sm);
     FCW.x_lead := dRel lead_1;
     FCW.v_lead := vLead lead_1;
     FCW.a_lead := aLeadK lead_1;
     FCW.y_lead := yRel lead_1;
     FCW.vlat_lead := vLat lead_1;
     FCW.fcw_lead := lead_fcw lead_1;
     FCW.blinkers := blinkers |}.

(** [Planner.update]. *)
Definition update (self : Planner M MM F) (sm : SubMaster) (CP : CarParams)
  (env : Environment) : option (Planner M MM F) :=
  let cur_time := sec_since_boot env in
  let v_ego := vEgo (carState sm) in
  let long_control_state := longControlState (controlsState sm) in
  let force_slow_decel := forceDecel (controlsState sm) in
  let v_cruise_setpoint := cruise_setpoint sm CP in
  let lead_1 := leadOne (radarState sm) in
  let lead_2 := leadTwo (radarState sm) in
  let enabled := is_enabled long_control_state in
  let following :=
    status lead_1 && Py.lt (dRel lead_1) 45.0 && Py.gt (vLeadK lead_1) v_ego
    && Py.gt (aLeadK lead_1) 0.0 in
  let v_acc_start' := v_acc_next self in
  let a_acc_start' := a_acc_next self in
  speed_map' <- update_speed_map (speed_map self) env ;;
  (* Calculate speed for normal cruise control *)
  '(v_acc', a_acc', v_acc_start', a_acc_start', v_cruise', a_cruise') <-
    (if engaged_normal enabled (first_loop self) (carState sm) then
       let accel_limits := calc_cruise_accel_limits v_ego following in
       let jerk_limits := (Py.min2 (-0.1) (fst accel_limits),
                           Py.max2 0.1 (snd accel_limits)) in
       accel_limits_turns <-
         limit_accel_in_turns v_ego (steeringAngleDeg (carState sm))
                              accel_limits (self_CP self) ;;
       let accel_limits_turns :=
         if force_slow_decel && false then (* awareness decel is disabled for now *)
           let hi := Py.min2 (snd accel_limits_turns) AWARENESS_DECEL in
           (Py.min2 (fst accel_limits_turns) hi, hi)
         else accel_limits_turns in
       let '(v_cruise', a_cruise') :=
         speed_smoother v_acc_start' a_acc_start' v_cruise_setpoint
                        (snd accel_limits_turns) (fst accel_limits_turns)
                        (snd jerk_limits) (fst jerk_limits) LON_MPC_STEP in
       (* cruise speed can't be negative even is user is distracted *)
       let v_cruise' := Py.max2 v_cruise' 0 in
       Some (v_acc self, a_acc self, v_acc_start', a_acc_start', v_cruise', a_cruise')
     else
       let starting := LongCtrlState_eqb long_control_state starting in
       let a_ego := Py.min2 (aEgo (carState sm)) 0.0 in
       let reset_speed := if starting then minSpeedCan (self_CP self) else v_ego in
       let reset_accel := if starting then startAccel (self_CP self) else a_ego in
       Some (reset_speed, reset_accel, reset_speed, reset_accel,
             reset_speed, reset_accel)) ;;
  let mpc1' := LongMpc.set_cur_state (mpc1 self) v_acc_start' a_acc_start' in
  let mpc2' := LongMpc.set_cur_state (mpc2 self) v_acc_start' a_acc_start' in
  let mpc_model' :=
    LongMpcModel.set_cur_state (mpc_model self) v_acc_start' a_acc_start' in
  let mpc1' := LongMpc.update mpc1' (carState sm) lead_1 in
  let mpc2' := LongMpc.update mpc2' (carState sm) lead_2 in
  '(distances, speeds, accelerations) <- convert_data sm ;;
  let mpc_model' :=
    LongMpcModel.update mpc_model' (vEgo (carState sm)) (aEgo (carState sm))
                        distances speeds accelerations in
  self <- choose_solution
            {| self_CP := self_CP self;
               mpc1 := mpc1';
               mpc2 := mpc2';
               mpc_model := mpc_model';
               v_acc_start := v_acc_start';
               a_acc_start := a_acc_start';
               v_acc_next := v_acc_next self;
               a_acc_next := a_acc_next self;
               v_acc := v_acc';
               v_acc_future := v_acc_future self;
               a_acc := a_acc';
               v_cruise := v_cruise';
               a_cruise := a_cruise';
               longitudinalPlanSource := longitudinalPlanSource self;
               fcw_checker := fcw_checker self;
               fcw := fcw self;
               first_loop := first_loop self;
               speed_map := speed_map';
               tartget_speed_offset := tartget_speed_offset self;
               vego := v_ego |}
            v_cruise_setpoint enabled (ModelLongEnabled env) ;;
  (* determine fcw *)
  let fcw_checker' :=
    if LongMpc.new_lead (mpc1 self)
    then FCW.reset_lead (fcw_checker self) cur_time
    else fcw_checker self in
  let '(fcw_checker', warned) :=
    FCW.update fcw_checker' (fcw_args (mpc1 self) sm cur_time) in
  let fcw' := warned && negb (brakePressed (carState sm)) in
  (* Interpolate 0.05 seconds and save as starting point for next iteration *)
  let a_acc_sol :=
    a_acc_start self
    + (radarTimeStep CP / LON_MPC_STEP) * (a_acc self - a_acc_start self) in
  let v_acc_sol :=
    v_acc_start self + radarTimeStep CP * (a_acc_sol + a_acc_start self) / 2.0 in
  Some {| self_CP := self_CP self;
          mpc1 := mpc1 self;
          mpc2 := mpc2 self;
          mpc_model := mpc_model self;
          v_acc_start := v_acc_start self;
          a_acc_start := a_acc_start self;
          v_acc_next := v_acc_sol;
          a_acc_next := a_acc_sol;
          v_acc := v_acc self;
          v_acc_future := v_acc_future self;
          a_acc := a_acc self;
          v_cruise := v_cruise self;
          a_cruise := a_cruise self;
          longitudinalPlanSource := longitudinalPlanSource self;
          fcw_checker := fcw_checker';
          fcw := fcw';
          first_loop := false;
          speed_map := speed_map self;
          tartget_speed_offset := tartget_speed_offset self;
          vego := vego self |}.

(** [Planner.publish]: the message sent and the planner afterwards (the sign
    flag is the only field it writes).  [logMonoTime] is the time stamp of the
    new message.  The two lead solvers publish their own messages. *)
Definition publish (self : Planner M MM F) (sm : SubMaster) (logMonoTime : Z)
  : Planner M MM F * LongitudinalPlan :=
  let m := speed_map self in
  (* Send radarstate(dRel, vRel, yRel) *)
  let lead_1 := leadOne (radarState sm) in
  let lead_2 := leadTwo (radarState sm) in
  let kph := vego self * MS_TO_KPH CV in
  let cam_distance_calc := interp kph [30; 60; 100; 160] [3.75; 5.5; 6; 7] in
  let consider_speed :=
    interp (kph - inject_Z (target_speed_map m)) [10; 30] [1; 1.3] in
  let reach := cam_distance_calc * consider_speed * vego self * MS_TO_KPH CV in
  let '(camera, camera_dist, sign) :=
    if (29 <? target_speed_map m)%Z
       && Py.lt (inject_Z (target_speed_map_dist m)) reach then
      (inject_Z (target_speed_map m), inject_Z (target_speed_map_dist m), true)
    else if (29 <? target_speed_map m)%Z
            && Py.ge (inject_Z (target_speed_map_dist m)) reach
            && target_speed_map_block m then
      (inject_Z (target_speed_map m), inject_Z (target_speed_map_dist m), true)
    else if (29 <? target_speed_map m)%Z && target_speed_map_sign m then
      (inject_Z (target_speed_map m), inject_Z (target_speed_map_dist m),
       target_speed_map_sign m)
    else (0, 0, target_speed_map_sign m) in
  ({| self_CP := self_CP self;
      mpc1 := mpc1 self;
      mpc2 := mpc2 self;
      mpc_model := mpc_model self;
      v_acc_start := v_acc_start self;
      a_acc_start := a_acc_start self;
      v_acc_next := v_acc_next self;
      a_acc_next := a_acc_next self;
      v_acc := v_acc self;
      v_acc_future := v_acc_future self;
      a_acc := a_acc self;
      v_cruise := v_cruise self;
      a_cruise := a_cruise self;
      longitudinalPlanSource := longitudinalPlanSource self;
      fcw_checker := fcw_checker self;
      fcw := fcw self;
      first_loop := first_loop self;
      speed_map := {| target_speed_map := target_speed_map m;
                      target_speed_map_counter := target_speed_map_counter m;
                      target_speed_map_counter_check :=
                        target_speed_map_counter_check m;
                      target_speed_map_counter1 := target_speed_map_counter1 m;
                      target_speed_map_counter2 := target_speed_map_counter2 m;
                      target_speed_map_counter3 := target_speed_map_counter3 m;
                      target_speed_map_dist := target_speed_map_dist m;
                      target_speed_map_block := target_speed_map_block m;
                      target_speed_map_sign := sign |};
      tartget_speed_offset := tartget_speed_offset self;
      vego := vego self |},
   {| plan_valid := all_alive_and_valid sm;
      mdMonoTime := logMonoTime_modelV2 sm;
      radarStateMonoTime := logMonoTime_radarState sm;
      vCruise_out := v_cruise self;
      aCruise := a_cruise self;
      vStart := v_acc_start self;
      aStart := a_acc_start self;
      vTarget := v_acc self;
      aTarget := a_acc self;
      vTargetFuture := v_acc_future self;
      hasLead := LongMpc.prev_lead_status (mpc1 self);
      longitudinalPlanSource_out := longitudinalPlanSource self;
      fcw_out := fcw self;
      processingDelay :=
        inject_Z logMonoTime / 1000000000 - rcv_time_radarState sm;
      dRel1 := dRel lead_1;
      yRel1 := yRel lead_1;
      vRel1 := vRel lead_1;
      dRel2 := dRel lead_2;
      yRel2 := yRel lead_2;
      vRel2 := vRel lead_2;
      status2 := status lead_2;
      targetSpeedCamera := camera;
      targetSpeedCameraDist := camera_dist |}).

(** Modelled from the spec: the planner daemon's loop body
    ([selfdrive/controls/plannerd.py]), which is not among the source files;
    the specification has every cycle run the update to completion and then
    publish exactly one output. *)
Definition cycle (self : Planner M MM F) (sm : SubMaster) (CP : CarParams)
  (env : Environment) (logMonoTime : Z)
  : option (Planner M MM F * LongitudinalPlan) :=
  self <- update self sm CP env ;;
  Some (publish self sm logMonoTime).

(** Modelled from the spec: successive iterations of the planner daemon's
    loop ([selfdrive/controls/plannerd.py], not among the source files), one
    [update] per snapshot, the state of one cycle handed to the next. *)
Fixpoint run (self : Planner M MM F)
  (inputs : list (SubMaster * CarParams * Environment))
  : option (Planner M MM F) :=
  match inputs with
  | [] => Some self
  | (sm, CP, env) :: rest =>
      self <- update self sm CP env ;;
      run self rest
  end.

End PlannerCode.

(** The planner with only its future-speed estimate replaced. *)
Definition with_v_acc_future {M MM F : Type} (self : Planner M MM F)
  (future : Q) : Planner M MM F :=
  {| self_CP := self_CP self;
     mpc1 := mpc1 self;
     mpc2 := mpc2 self;
     mpc_model := mpc_model self;
     v_acc_start := v_acc_start self;
     a_acc_start := a_acc_start self;
     v_acc_next := v_acc_next self;
     a_acc_next := a_acc_next self;
     v_acc := v_acc self;
     v_acc_future := future;
     a_acc := a_acc self;
     v_cruise := v_cruise self;
     a_cruise := a_cruise self;
     longitudinalPlanSource := longitudinalPlanSource self;
     fcw_checker := fcw_checker self;
     fcw := fcw self;
     first_loop := first_loop self;
     speed_map := speed_map self;
     tartget_speed_offset := tartget_speed_offset self;
     vego := vego self |}.

(** ** The arbitration rule, in the specification's terms *)

(** The fixed candidate set, in priority order. *)
Inductive Candidate : Type := Cruise | Lead1 | Lead2 | Model.

Definition priority_order : list Candidate := [Cruise; Lead1; Lead2; Model].

Definition rank (c : Candidate) : nat :=
  match c with Cruise => 0 | Lead1 => 1 | Lead2 => 2 | Model => 3 end.

(** The identifier a candidate is published under. *)
Definition label (c : Candidate) : string :=
  match c with
  | Cruise => "cruise"
  | Lead1 => "mpc1"
  | Lead2 => "mpc2"
  | Model => "model"
  end.

Section Arbitration.

Context {M MM F Sol : Type}.
Context {MpcI : LongMpc.Interface M Sol}.
Context {ModelI : LongMpcModel.Interface MM}.
Context {FcwI : FCW.Interface F Sol}.

(** Cruise is always eligible; a lead candidate is eligible when its solver's
    lead status is set; the model candidate when it is valid and model
    planning is enabled. *)
Definition eligible (self : Planner M MM F) (model_enabled : bool)
  (c : Candidate) : bool :=
  match c with
  | Cruise => true
  | Lead1 => LongMpc.prev_lead_status (mpc1 self)
  | Lead2 => LongMpc.prev_lead_status (mpc2 self)
  | Model => LongMpcModel.valid (mpc_model self) && model_enabled
  end.

Definition target_speed (self : Planner M MM F) (c : Candidate) : Q :=
  match c with
  | Cruise => v_cruise self
  | Lead1 => LongMpc.v_mpc (mpc1 self)
  | Lead2 => LongMpc.v_mpc (mpc2 self)
  | Model => LongMpcModel.v_mpc (mpc_model self)
  end.

Definition target_accel (self : Planner M MM F) (c : Candidate) : Q :=
  match c with
  | Cruise => a_cruise self
  | Lead1 => LongMpc.a_mpc (mpc1 self)
  | Lead2 => LongMpc.a_mpc (mpc2 self)
  | Model => LongMpcModel.a_mpc (mpc_model self)
  end.

(** The planner's target is the slowest eligible candidate, the earliest in
    priority order among equally slow ones, published under its label. *)
Definition arbitrated (self : Planner M MM F) (model_enabled : bool) : Prop :=
  exists w : Candidate,
    eligible self model_enabled w = true
    /\ longitudinalPlanSource self = label w
    /\ v_acc self = target_speed self w
    /\ a_acc self = target_accel self w
    /\ forall c, eligible self model_enabled c = true ->
         target_speed self w <= target_speed self c
         /\ ((rank c < rank w)%nat -> target_speed self w < target_speed self c).

(** The minimum of the three unconditional future-speed estimates. *)
Definition min_future (self : Planner M MM F) (v_cruise_setpoint : Q) : Q :=
  Qmin (Qmin v_cruise_setpoint (LongMpc.v_mpc_future (mpc1 self)))
       (LongMpc.v_mpc_future (mpc2 self)).

(** The values the fallback branch of [update] resets the plan to. *)
Definition reset_speed (self : Planner M MM F) (sm : SubMaster) : Q :=
  if LongCtrlState_eqb (longControlState (controlsState sm)) starting
  then minSpeedCan (self_CP self) else vEgo (carState sm).

Definition reset_accel (self : Planner M MM F) (sm : SubMaster) : Q :=
  if LongCtrlState_eqb (longControlState (controlsState sm)) starting
  then startAccel (self_CP self) else Py.min2 (aEgo (carState sm)) 0.0.

(** The checker [update] consults: reset first when solver 1 has a new lead. *)
Definition checker_consulted (self : Planner M MM F) (mpc1' : M)
  (env : Environment) : F :=
  if LongMpc.new_lead mpc1'
  then FCW.reset_lead (fcw_checker self) (sec_since_boot env)
  else fcw_checker self.

End Arbitration.

(** Two snapshots that differ at most in the force-slow-deceleration flag. *)
Definition same_but_forceDecel (sm1 sm2 : SubMaster) : Prop :=
  carState sm1 = carState sm2
  /\ longControlState (controlsState sm1) = longControlState (controlsState sm2)
  /\ vCruise (controlsState sm1) = vCruise (controlsState sm2)
  /\ active (controlsState sm1) = active (controlsState sm2)
  /\ radarState sm1 = radarState sm2
  /\ modelV2 sm1 = modelV2 sm2
  /\ alive_modelV2 sm1 = alive_modelV2 sm2
  /\ all_alive_and_valid sm1 = all_alive_and_valid sm2
  /\ logMonoTime_modelV2 sm1 = logMonoTime_modelV2 sm2
  /\ logMonoTime_radarState sm1 = logMonoTime_radarState sm2
  /\ rcv_time_radarState sm1 = rcv_time_radarState sm2.

(** The longitudinal acceleration the limiter allows beside the lateral one
    (the local [a_x_allowed] of [limit_accel_in_turns]). *)
Definition a_x_allowed {Ext : Externals} (v_ego angle_steers : Q)
  (CP : CarParams) : Q :=
  let a_total_max := interp v_ego _A_TOTAL_MAX_BP _A_TOTAL_MAX_V in
  let a_y := v_ego ^ 2 * angle_steers * DEG_TO_RAD CV
             / (steerRatio CP * wheelbase CP) in
  sqrt (Py.max2 (a_total_max ^ 2 - a_y ^ 2) 0).

(** ** The adapter's output, in the specification's terms *)

(** Nearest-time-stamp resampling of a dense sequence onto the ten MPC steps. *)
Definition resample (samples : list Q) : list Q :=
  map (fun t => nth t samples 0) model_t_idx.

(** Central differences at the eight interior steps. *)
Definition central_differences (speeds : list Q) : list Q :=
  map (fun t => (nth (t + 1) speeds 0 - nth (t - 1) speeds 0) / 2) (seq 1 8).

(** The interior differences, extended linearly by one step at both ends. *)
Definition derived_accelerations (speeds : list Q) : list Q :=
  let inner := central_differences speeds in
  (nth 0 inner 0 - (nth 1 inner 0 - nth 0 inner 0))
    :: inner ++ [nth 7 inner 0 - (nth 6 inner 0 - nth 7 inner 0)].

(** A model trajectory that carries every sample the resampling reads. *)
Definition carries_samples (sm : SubMaster) : Prop :=
  (31 <= List.length (x (position (modelV2 sm))))%nat
  /\ (31 <= List.length (x (velocity (modelV2 sm))))%nat.

(** ** Canned collaborators

    Simple stand-ins for the external solvers, used to run the planner on
    concrete inputs. *)

(** A rational square root: exact on squares of rationals. *)
Definition Qsqrt (q : Q) : Q :=
  let r := Qred q in
  Z.sqrt (Qnum r) # Z.to_pos (Z.sqrt (Zpos (Qden r))).

Module Canned.

(** A lead solver that reports the lead's kinematics as its plan. *)
Record Mpc : Type := {
  m_v : Q;
  m_a : Q;
  m_future : Q;
  m_lead : bool;
  m_new : bool
}.

#[global] Instance MpcI : LongMpc.Interface Mpc unit := {|
  LongMpc.new := fun _ =>
    {| m_v := 0; m_a := 0; m_future := 0; m_lead := false; m_new := false |};
  LongMpc.v_mpc := m_v;
  LongMpc.a_mpc := m_a;
  LongMpc.v_mpc_future := m_future;
  LongMpc.prev_lead_status := m_lead;
  LongMpc.new_lead := m_new;
  LongMpc.mpc_solution := fun _ => tt;
  LongMpc.set_cur_state := fun m v a =>
    {| m_v := v; m_a := a; m_future := m_future m;
       m_lead := m_lead m; m_new := m_new m |};
  LongMpc.update := fun m cs lead =>
    if status lead then
      {| m_v := vLead lead; m_a := aLeadK lead; m_future := vLeadK lead;
         m_lead := true; m_new := negb (m_lead m) |}
    else
      {| m_v := m_v m; m_a := m_a m; m_future := m_v m;
         m_lead := false; m_new := false |}
|}.

(** A model solver that follows the first and last resampled speeds. *)
Record Model : Type := {
  mm_valid : bool;
  mm_v : Q;
  mm_a : Q;
  mm_future : Q
}.

#[global] Instance ModelI : LongMpcModel.Interface Model := {|
  LongMpcModel.new :=
    {| mm_valid := false; mm_v := 0; mm_a := 0; mm_future := 0 |};
  LongMpcModel.valid := mm_valid;
  LongMpcModel.v_mpc := mm_v;
  LongMpcModel.a_mpc := mm_a;
  LongMpcModel.v_mpc_future := mm_future;
  LongMpcModel.set_cur_state := fun m v a =>
    {| mm_valid := mm_valid m; mm_v := v; mm_a := a; mm_future := mm_future m |};
  LongMpcModel.update := fun m v_ego a_ego distances speeds accelerations =>
    match speeds with
    | [] => {| mm_valid := false; mm_v := mm_v m; mm_a := mm_a m;
               mm_future := mm_future m |}
    | v0 :: _ => {| mm_valid := true; mm_v := v0; mm_a := hd 0 accelerations;
                    mm_future := last speeds v0 |}
    end
|}.

(** A warner that repeats the radar's own warning while controls are active. *)
#[global] Instance FcwI : FCW.Interface unit unit := {|
  FCW.new := tt;
  FCW.reset_lead := fun f _ => f;
  FCW.update := fun f args => (f, FCW.fcw_lead _ args && FCW.active args)
|}.

(** A smoother that steps the speed toward the target within the bounds. *)
Definition smoother (v_start a_start v_target a_max a_min j_max j_min dt : Q)
  : Q * Q :=
  let a := Py.max2 a_min (Py.min2 a_max ((v_target - v_start) / dt)) in
  (v_start + a * dt, a).

#[global] Instance Ext : Externals := {|
  sqrt := Qsqrt;
  speed_smoother := smoother;
  CV := {| KPH_TO_MS := 1 / 3.6; MS_TO_KPH := 3.6;
           DEG_TO_RAD := 0.017453292519943295 |};
  V_CRUISE_MAX := 144;
  int_of_float_string := fun _ => Some 0%Z
|}.

Definition CP : CarParams :=
  {| sccBus := 0; steerRatio := 13.5; wheelbase := 2.7; minSpeedCan := 0.3;
     startAccel := 1.0; radarTimeStep := 0.05 |}.

Definition env : Environment :=
  {| sec_since_boot := 100; OpkrMapEnable := false; ModelLongEnabled := false;
     LimitSetSpeedCamera := None; LimitSetSpeedCameraDist := None |}.

Definition no_lead : LeadData :=
  {| status := false; dRel := 0; yRel := 0; vRel := 0; vLead := 0; vLeadK := 0;
     aLeadK := 0; vLat := 0; lead_fcw := false |}.

(** A tracked lead 20 m ahead driving [v] m/s, flagged by the radar. *)
Definition lead (v : Q) : LeadData :=
  {| status := true; dRel := 20; yRel := 0; vRel := v - 10; vLead := v;
     vLeadK := v; aLeadK := 0; vLat := 0; lead_fcw := true |}.

Definition slow_lead : LeadData := lead 5.

(** Ego at 10 m/s and 0.5 m/s^2, cruise set to 72 km/h. *)
Definition car (brake gas : bool) : CarState :=
  {| vEgo := 10; aEgo := 0.5; vSetDis := 72; brakePressed := brake;
     gasPressed := gas; steeringAngleDeg := 0; leftBlinker := false;
     rightBlinker := false |}.

Definition snapshot (cs : CarState) (state : LongCtrlState) (force : bool)
  (lead_1 : LeadData) (px vx : list Q) : SubMaster :=
  {| carState := cs;
     controlsState := {| longControlState := state; vCruise := 72;
                         forceDecel := force; active := true |};
     radarState := {| leadOne := lead_1; leadTwo := no_lead |};
     modelV2 := {| position := {| x := px |}; velocity := {| x := vx |} |};
     alive_modelV2 := true;
     all_alive_and_valid := true;
     logMonoTime_modelV2 := 1;
     logMonoTime_radarState := 2;
     rcv_time_radarState := 100 |}.

(** A 33-sample trajectory at a steady 3 m/s. *)
Definition positions : list Q :=
  map (fun i : nat => 3 * (inject_Z (Z.of_nat i) ^ 2 / 102.4)) (seq 0 33).

Definition velocities : list Q := repeat 3 33.

Definition planner0 : Planner Mpc Model unit := Planner_init CP 0.

(** A planner past its first cycle, cruising at 10 m/s. *)
Definition planner1 : Planner Mpc Model unit :=
  {| self_CP := CP;
     mpc1 := LongMpc.new 1;
     mpc2 := LongMpc.new 2;
     mpc_model := LongMpcModel.new;
     v_acc_start := 10;
     a_acc_start := 0;
     v_acc_next := 10;
     a_acc_next := 0;
     v_acc := 10;
     v_acc_future := 10;
     a_acc := 0;
     v_cruise := 10;
     a_cruise := 0;
     longitudinalPlanSource := "cruise";
     fcw_checker := tt;
     fcw := false;
     first_loop := false;
     speed_map := speed_map planner0;
     tartget_speed_offset := 0;
     vego := 10 |}.

(** An alive trajectory with a single sample. *)
Definition short_trajectory : SubMaster :=
  snapshot (car false false) pid false no_lead [1] [1].

(** The steady trajectory, every velocity raised by 1 m/s. *)
Definition faster : SubMaster :=
  snapshot (car false false) pid false no_lead positions
           (map (fun v => v + 1) velocities).

(** Brake pressed while the control state is [state], with lead [lead_1]. *)
Definition braking (state : LongCtrlState) (lead_1 : LeadData) : SubMaster :=
  snapshot (car true false) state false lead_1 [] [].

(** No pedal pressed, controls off, no lead. *)
Definition idle : SubMaster :=
  snapshot (car false false) off false no_lead positions velocities.

(** No pedal pressed, control state [pid], trajectory present. *)
Definition cruising (force : bool) (lead_1 : LeadData) : SubMaster :=
  snapshot (car false false) pid force lead_1 positions velocities.

End Canned.

(** The shape the speed-camera bookkeeping keeps: the stored speed is zero or
    above 29, a zero speed goes with a zero distance and no block, and the
    counters stay within their windows. *)
Definition speed_map_ok (m : SpeedMap) : Prop :=
  (target_speed_map m = 0 \/ 29 < target_speed_map m)%Z
  /\ (target_speed_map m = 0%Z ->
      target_speed_map_dist m = 0%Z /\ target_speed_map_block m = false)
  /\ (target_speed_map_counter1 m = 0 \/ target_speed_map_counter1 m = 80)%Z
  /\ (0 <= target_speed_map_counter2 m <= 2)%Z
  /\ (0 <= target_speed_map_counter3 m <= 2)%Z
  /\ (0 <= target_speed_map_counter m
      <= 74 + target_speed_map_counter1 m)%Z
  /\ (target_speed_map_counter_check m = false ->
      (target_speed_map_counter m <= 49 + target_speed_map_counter1 m)%Z).

(** * Properties *)

(** ** Comparisons, [min] and [max] *)

Lemma lt_spec (a b : Q) : reflect (a < b) (Py.lt a b).
Proof.
  unfold Py.lt. destruct (a ?= b) eqn:E; constructor.
  - apply Qeq_alt in E. rewrite E. apply Qlt_irrefl.
  - now apply Qlt_alt.
  - apply Qgt_alt in E. intros H. apply (Qlt_irrefl a).
    now apply Qlt_trans with b.
Qed.

Lemma gt_spec (a b : Q) : reflect (b < a) (Py.gt a b).
Proof. unfold Py.gt. apply lt_spec. Qed.

Ltac by_comparisons :=
  repeat match goal with
         | |- context [Py.gt ?a ?b] => destruct (gt_spec a b)
         | |- context [Py.lt ?a ?b] => destruct (lt_spec a b)
         end.

Lemma min2_Qmin (a b : Q) : Py.min2 a b = Qmin a b.
Proof.
  unfold Py.min2, Py.lt, Qmin, GenericMinMax.gmin.
  rewrite <- (Qcompare_antisym a b).
  destruct (a ?= b); reflexivity.
Qed.

Lemma min2_le_l (a b : Q) : Py.min2 a b <= a.
Proof. unfold Py.min2. by_comparisons; lra. Qed.

Lemma min2_le_r (a b : Q) : Py.min2 a b <= b.
Proof. unfold Py.min2. by_comparisons; lra. Qed.

Lemma max2_ge_r (a b : Q) : b <= Py.max2 a b.
Proof. unfold Py.max2. by_comparisons; lra. Qed.

(** ** The square root used on concrete inputs *)

Lemma Qsqrt_nonneg (q : Q) : 0 <= Qsqrt q.
Proof.
  unfold Qsqrt, Qle; simpl. rewrite Z.mul_1_r. apply Z.sqrt_nonneg.
Qed.

Lemma Qsqrt_reduced_square (r : Q) :
  Qred r = r -> 0 <= r -> Qsqrt (r * r) = r.
Proof.
  intros Hr Hpos.
  assert (Hg : Z.gcd (Qnum r) (QDen r) = 1%Z) by now apply Qred_identity2.
  assert (Hrr : Qred (r * r) = r * r).
  { apply Qred_identity. destruct r as [a b]; simpl in *.
    rewrite Pos2Z.inj_mul.
    apply Z.coprime_mul_l; apply Z.coprime_mul_r; exact Hg. }
  unfold Qsqrt. rewrite Hrr.
  destruct r as [a b]; unfold Qmult; cbn [Qnum Qden].
  assert (Ha : (0 <= a)%Z) by (unfold Qle in Hpos; simpl in Hpos; lia).
  rewrite Pos2Z.inj_mul, !Z.sqrt_square by lia.
  reflexivity.
Qed.

Lemma Qsqrt_exact (q y : Q) : 0 <= y -> q == y * y -> Qsqrt q == y.
Proof.
  intros Hy Hq.
  assert (E : Qred q = Qred (Qred y * Qred y)).
  { apply Qred_complete. rewrite !Qred_correct. exact Hq. }
  unfold Qsqrt. rewrite E. fold (Qsqrt (Qred y * Qred y)).
  rewrite Qsqrt_reduced_square.
  - apply Qred_correct.
  - apply Qred_involutive.
  - rewrite Qred_correct. exact Hy.
Qed.

(** ** Acceleration tables *)

(** A linear interpolation between two breakpoints stays between any bounds
    that hold at both breakpoints. *)
Lemma lerp_between (v xlo xhi flo fhi lo hi : Q) :
  xlo < v -> v <= xhi -> lo <= flo <= hi -> lo <= fhi <= hi ->
  lo <= (v - xlo) * (fhi - flo) / (xhi - xlo) + flo <= hi.
Proof.
  intros H1 H2 H3 H4.
  assert (Hd : 0 < xhi - xlo) by lra.
  set (t := (v - xlo) / (xhi - xlo)).
  assert (Ht : 0 <= t <= 1).
  { unfold t. split.
    - apply Qle_shift_div_l; [exact Hd | lra].
    - apply Qle_shift_div_r; [exact Hd | lra]. }
  setoid_replace ((v - xlo) * (fhi - flo) / (xhi - xlo) + flo)
    with (t * fhi + (1 - t) * flo) by (unfold t; field; lra).
  split; nra.
Qed.

Lemma a_total_max_bounds (v_ego : Q) :
  1.7 <= interp v_ego _A_TOTAL_MAX_BP _A_TOTAL_MAX_V <= 3.2.
Proof.
  unfold interp, _A_TOTAL_MAX_BP, _A_TOTAL_MAX_V; simpl.
  by_comparisons; try lra; apply lerp_between; lra.
Qed.

(** The cruise tables keep the upper acceleration bound within [0.4, 1.6]. *)
Lemma a_cruise_max_bounds (v_ego : Q) (following : bool) :
  0.4 <= snd (calc_cruise_accel_limits v_ego following) <= 1.6.
Proof.
  unfold calc_cruise_accel_limits, interp, _A_CRUISE_MAX_BP,
    _A_CRUISE_MAX_V, _A_CRUISE_MAX_V_FOLLOWING.
  destruct following; simpl; by_comparisons; try lra;
    apply lerp_between; lra.
Qed.

(** ** The turn limiter *)

Section TurnLimiter.

Context {Ext : Externals}.

(** What the planner relies on from [math.sqrt]: a non-negative result that
    is the exact root of a square. *)
Hypothesis sqrt_nonneg : forall q, 0 <= sqrt q.
Hypothesis sqrt_exact : forall q y, 0 <= y -> q == y * y -> sqrt q == y.

Lemma div_some (a b : Q) : ~ b == 0 -> Py.div a b = Some (a / b).
Proof.
  intros Hb. unfold Py.div.
  destruct (Qeq_bool b 0) eqn:E; [|reflexivity].
  apply Qeq_bool_eq in E. contradiction.
Qed.

Lemma limit_accel_in_turns_run (v_ego angle_steers : Q) (a_target : Q * Q)
  (CP : CarParams) :
  ~ steerRatio CP * wheelbase CP == 0 ->
  limit_accel_in_turns v_ego angle_steers a_target CP
  = Some (fst a_target, Py.min2 (snd a_target) (a_x_allowed v_ego angle_steers CP)).
Proof.
  intros Hgeo. unfold limit_accel_in_turns.
  rewrite (div_some _ _ Hgeo). reflexivity.
Qed.

Lemma a_x_allowed_nonneg (v_ego angle_steers : Q) (CP : CarParams) :
  0 <= a_x_allowed v_ego angle_steers CP.
Proof. apply sqrt_nonneg. Qed.

Lemma a_x_allowed_straight (v_ego angle_steers : Q) (CP : CarParams) :
  angle_steers == 0 ->
  a_x_allowed v_ego angle_steers CP
  == interp v_ego _A_TOTAL_MAX_BP _A_TOTAL_MAX_V.
Proof.
  intros Hangle. unfold a_x_allowed.
  set (a_total_max := interp v_ego _A_TOTAL_MAX_BP _A_TOTAL_MAX_V).
  set (a_y := v_ego ^ 2 * angle_steers * DEG_TO_RAD CV
              / (steerRatio CP * wheelbase CP)).
  assert (Hay : a_y == 0).
  { unfold a_y, Qdiv. rewrite Hangle. ring. }
  assert (Htot : 1.7 <= a_total_max <= 3.2) by apply a_total_max_bounds.
  apply sqrt_exact; [lra|].
  unfold Py.max2.
  destruct (gt_spec 0 (a_total_max ^ 2 - a_y ^ 2)) as [Hneg|_].
  - exfalso. rewrite Hay in Hneg.
    assert (0 <= a_total_max ^ 2 - 0 ^ 2) by (simpl; nra).
    lra.
  - rewrite Hay. simpl. ring.
Qed.

Lemma min2_keeps_first (a b : Q) : a <= b -> Py.min2 a b = a.
Proof.
  intros Hle. unfold Py.min2.
  destruct (lt_spec b a) as [Hlt|_]; [|reflexivity].
  exfalso. lra.
Qed.

Lemma min2_nonneg (a b : Q) : 0 <= a -> 0 <= b -> 0 <= Py.min2 a b.
Proof. intros Ha Hb. unfold Py.min2. destruct (lt_spec b a); assumption. Qed.


(** X4: on the bounds the planner itself passes (those of the cruise tables)
    the limiter's upper bound is never negative, and it is the table's bound
    at zero steering angle. *)
Lemma limit_accel_in_turns_on_cruise_limits (v_ego angle_steers : Q)
  (following : bool) (CP : CarParams) :
  ~ steerRatio CP * wheelbase CP == 0 ->
  let accel_limits := calc_cruise_accel_limits v_ego following in
  exists upper,
    limit_accel_in_turns v_ego angle_steers accel_limits CP
      = Some (fst accel_limits, upper)
    /\ 0 <= upper
    /\ (angle_steers == 0 -> upper = snd accel_limits).
Proof.
  intros Hgeo accel_limits.
  rewrite (limit_accel_in_turns_run _ _ _ _ Hgeo).
  pose proof (a_cruise_max_bounds v_ego following) as Hmax.
  pose proof (a_total_max_bounds v_ego) as Htot.
  fold accel_limits in Hmax.
  eexists. split; [reflexivity|]. split.
  - apply min2_nonneg; [lra | apply a_x_allowed_nonneg].
  - intros Hangle. apply min2_keeps_first.
    rewrite (a_x_allowed_straight _ _ _ Hangle). lra.
Qed.

End TurnLimiter.

(** ** The model trajectory adapter *)

Lemma model_t_idx_eq :
  model_t_idx = [0; 10; 14; 18; 20; 23; 25; 27; 29; 30]%nat.
Proof. vm_compute. reflexivity. Qed.

(** The assertion of [ModelMpcHelper.__init__]. *)
Lemma model_t_idx_length : List.length model_t_idx = 10%nat.
Proof. rewrite model_t_idx_eq. reflexivity. Qed.

Lemma comprehension_index (samples : list Q) (idxs : list nat) :
  Forall (fun i => (i < List.length samples)%nat) idxs ->
  Py.comprehension (Py.index samples) idxs
  = Some (map (fun t => nth t samples 0) idxs).
Proof.
  induction 1 as [|i idxs Hi _ IH]; simpl; [reflexivity|].
  unfold Py.index at 1. rewrite (nth_error_nth' samples 0 Hi), IH.
  reflexivity.
Qed.

Lemma resample_run (samples : list Q) :
  (31 <= List.length samples)%nat ->
  Py.comprehension (Py.index samples) model_t_idx = Some (resample samples).
Proof.
  intros Hlen. unfold resample. apply comprehension_index.
  rewrite model_t_idx_eq.
  repeat (constructor; [lia|]). constructor.
Qed.

Lemma resample_length (samples : list Q) :
  List.length (resample samples) = 10%nat.
Proof. unfold resample. rewrite length_map. apply model_t_idx_length. Qed.

(** On an alive trajectory that carries its samples the adapter returns the
    resampled distances and speeds and the accelerations derived from the
    latter. *)
Lemma convert_data_run (sm : SubMaster) :
  alive_modelV2 sm = true ->
  carries_samples sm ->
  convert_data sm
  = Some (resample (x (position (modelV2 sm))),
          resample (x (velocity (modelV2 sm))),
          derived_accelerations (resample (x (velocity (modelV2 sm))))).
Proof.
  intros Halive [Hpos Hvel]. unfold convert_data. cbv zeta.
  assert (Hfull : (List.length (x (position (modelV2 sm))) =? 0)%nat = false)
    by (apply Nat.eqb_neq; lia).
  rewrite Halive, Hfull. cbn [negb orb].
  rewrite (resample_run _ Hvel), (resample_run _ Hpos).
  unfold resample. rewrite model_t_idx_eq. reflexivity.
Qed.

Lemma convert_data_absent (sm : SubMaster) :
  alive_modelV2 sm = false \/ x (position (modelV2 sm)) = [] ->
  convert_data sm = Some ([], [], []).
Proof.
  intros [Hdead|Hempty]; unfold convert_data.
  - rewrite Hdead. reflexivity.
  - rewrite Hempty. cbn [List.length Nat.eqb]. rewrite orb_true_r. reflexivity.
Qed.

Ltac index_cases t :=
  do 10 (try (destruct t as [|t]; [try lia; try reflexivity|])); try lia.

(** C5: on an alive 33-sample trajectory the adapter's accelerations at the
    interior steps 1..8 are the central differences of the resampled speeds,
    the two end values continue the neighbouring pair linearly, and a
    trajectory of constant velocity gives ten zero accelerations. *)
Theorem convert_data_accelerations (sm : SubMaster) :
  alive_modelV2 sm = true ->
  List.length (x (position (modelV2 sm))) = 33%nat ->
  List.length (x (velocity (modelV2 sm))) = 33%nat ->
  exists distances speeds accelerations,
    convert_data sm = Some (distances, speeds, accelerations)
    /\ speeds = resample (x (velocity (modelV2 sm)))
    /\ (forall t, (1 <= t <= 8)%nat ->
          nth t accelerations 0
          = (nth (t + 1) speeds 0 - nth (t - 1) speeds 0) / 2)
    /\ nth 0 accelerations 0
       = nth 1 accelerations 0
         - (nth 2 accelerations 0 - nth 1 accelerations 0)
    /\ nth 9 accelerations 0
       = nth 8 accelerations 0
         - (nth 7 accelerations 0 - nth 8 accelerations 0)
    /\ (forall c, Forall (fun v => v == c) (x (velocity (modelV2 sm))) ->
          List.length accelerations = 10%nat
          /\ Forall (fun a => a == 0) accelerations).
Proof.
  intros Halive Hpos Hvel.
  rewrite convert_data_run by (unfold carries_samples; auto with zarith).
  do 3 eexists. split; [reflexivity|]. split; [reflexivity|].
  unfold resample. rewrite model_t_idx_eq.
  set (vx := x (velocity (modelV2 sm))) in *.
  split; [|split; [reflexivity|split; [reflexivity|]]].
  - intros t Ht. index_cases t.
  - intros c Hconst. split; [reflexivity|].
    assert (Hc : forall i, (i < 33)%nat -> nth i vx 0 == c).
    { intros i Hi.
      apply (proj1 (Forall_nth (fun v => v == c) vx)); [exact Hconst | lia]. }
    unfold derived_accelerations, central_differences.
    cbn [map seq nth app Nat.add Nat.sub].
    repeat apply Forall_cons; try apply Forall_nil; cbv beta;
      rewrite !Hc by lia; unfold Qdiv; ring.
Qed.

Lemma convert_data_accelerations_witness :
  exists distances speeds accelerations,
    convert_data (Canned.snapshot (Canned.car false false) pid false
                    Canned.no_lead Canned.positions Canned.velocities)
    = Some (distances, speeds, accelerations)
    /\ Forall (fun a => a == 0) accelerations.
Proof.
  destruct (convert_data_accelerations
              (Canned.snapshot (Canned.car false false) pid false
                 Canned.no_lead Canned.positions Canned.velocities)
              eq_refl eq_refl eq_refl)
    as (d & s & a & Hrun & _ & _ & _ & _ & Hconst).
  exists d, s, a. split; [exact Hrun|].
  apply (Hconst 3).
  repeat (constructor; [reflexivity|]). constructor.
Defined.

(** C6 (as amended): the adapter returns three empty arrays when the
    trajectory is not alive or has no position sample, and three arrays of
    exactly ten elements when it is alive and carries the samples the
    resampling reads (at least 31 positions and velocities; the model sends
    33). *)
Theorem convert_data_shape (sm : SubMaster) :
  (alive_modelV2 sm = false \/ x (position (modelV2 sm)) = [] ->
   convert_data sm = Some ([], [], []))
  /\ (alive_modelV2 sm = true -> carries_samples sm ->
      exists distances speeds accelerations,
        convert_data sm = Some (distances, speeds, accelerations)
        /\ List.length distances = 10%nat
        /\ List.length speeds = 10%nat
        /\ List.length accelerations = 10%nat).
Proof.
  split; [apply convert_data_absent|].
  intros Halive Hcarries. rewrite (convert_data_run sm Halive Hcarries).
  do 3 eexists. split; [reflexivity|].
  split; [apply resample_length|]. split; [apply resample_length|].
  reflexivity.
Qed.

Lemma convert_data_shape_witness :
  convert_data (Canned.snapshot (Canned.car false false) pid false
                  Canned.no_lead [] []) = Some ([], [], [])
  /\ exists distances speeds accelerations,
       convert_data (Canned.snapshot (Canned.car false false) pid false
                       Canned.no_lead Canned.positions Canned.velocities)
       = Some (distances, speeds, accelerations)
       /\ List.length distances = 10%nat
       /\ List.length speeds = 10%nat
       /\ List.length accelerations = 10%nat.
Proof.
  split.
  - apply (proj1 (convert_data_shape _)). right. reflexivity.
  - apply (proj2 (convert_data_shape _)).
    + reflexivity.
    + split; vm_compute; lia.
Defined.

(** C6, as stated, fails: an alive trajectory with a single sample is
    non-empty, yet reading its sample 10 raises IndexError and no array is
    returned. *)
Lemma convert_data_short_trajectory :
  alive_modelV2 (Canned.snapshot (Canned.car false false) pid false
                   Canned.no_lead [1] [1]) = true
  /\ x (position (modelV2 (Canned.snapshot (Canned.car false false) pid false
                             Canned.no_lead [1] [1]))) <> []
  /\ convert_data (Canned.snapshot (Canned.car false false) pid false
                     Canned.no_lead [1] [1]) = None.
Proof. split; [reflexivity | split; [discriminate | reflexivity]]. Qed.



(** ** The arbiter *)

Section PlannerFacts.

Context {M MM F Sol : Type}.
Context {MpcI : LongMpc.Interface M Sol}.
Context {ModelI : LongMpcModel.Interface MM}.
Context {FcwI : FCW.Interface F Sol}.

Context {Ext : Externals}.

Ltac eval_dict_in H :=
  cbv [Py.min_key Py.min_list fold_left Py.dict_keys map fst Py.dict_set
       String.eqb Ascii.eqb Bool.eqb] in H.

(** Settle the comparisons of a running minimum from the first on. *)
Ltac compare_keys_in H :=
  repeat match type of H with
         | context [Py.lt (Py.dict_get_key ?d ?k1) (Py.dict_get_key ?d ?k2)] =>
             lazymatch k2 with String _ _ => idtac end;
             destruct (lt_spec (Py.dict_get_key d k1) (Py.dict_get_key d k2));
             cbv beta iota in H
         end.

Ltac eval_keys :=
  cbv [Py.dict_get_key Py.dict_get String.eqb Ascii.eqb Bool.eqb] in *.

Ltac solve_winner w :=
  exists w;
  cbn [eligible label target_speed target_accel longitudinalPlanSource
       v_acc a_acc mpc1 mpc2 mpc_model v_cruise a_cruise];
  split; [solve [auto] |];
  split; [reflexivity |];
  split; [reflexivity |];
  split; [reflexivity |];
  intros [] Hc;
  cbn [rank target_speed eligible mpc1 mpc2 mpc_model v_cruise] in *;
  try congruence;
  (split; [lra | intros; first [lia | lra]]).

Ltac eligibility_cases self model_enabled :=
  destruct (LongMpc.prev_lead_status (mpc1 self)) eqn:?;
  destruct (LongMpc.prev_lead_status (mpc2 self)) eqn:?;
  destruct (LongMpcModel.valid (mpc_model self) && model_enabled) eqn:?.

Lemma choose_solution_total (self : Planner M MM F) (v_cruise_setpoint : Q)
  (enabled model_enabled : bool) :
  exists self', choose_solution self v_cruise_setpoint enabled model_enabled
                = Some self'.
Proof.
  unfold choose_solution. destruct enabled; [|cbn; eexists; reflexivity].
  destruct (Py.min_key _ _) as [slowest|] eqn:Emin.
  - destruct (if String.eqb slowest "mpc1" then _ else _) as [v a].
    destruct (LongMpcModel.valid (mpc_model self) && model_enabled);
      cbn; eexists; reflexivity.
  - exfalso. revert Emin. unfold solutions_of.
    eligibility_cases self model_enabled; discriminate.
Qed.

(** The arbiter writes the target, the source label and the future speed,
    and nothing else. *)
Lemma choose_solution_frame (self self' : Planner M MM F)
  (v_cruise_setpoint : Q) (enabled model_enabled : bool) :
  choose_solution self v_cruise_setpoint enabled model_enabled = Some self' ->
  self_CP self' = self_CP self
  /\ mpc1 self' = mpc1 self /\ mpc2 self' = mpc2 self
  /\ mpc_model self' = mpc_model self
  /\ v_acc_start self' = v_acc_start self /\ a_acc_start self' = a_acc_start self
  /\ v_acc_next self' = v_acc_next self /\ a_acc_next self' = a_acc_next self
  /\ v_cruise self' = v_cruise self /\ a_cruise self' = a_cruise self
  /\ fcw_checker self' = fcw_checker self /\ fcw self' = fcw self
  /\ first_loop self' = first_loop self /\ speed_map self' = speed_map self
  /\ tartget_speed_offset self' = tartget_speed_offset self
  /\ vego self' = vego self.
Proof.
  unfold choose_solution.
  destruct (if enabled then _ else _) as [[[[source v] a] futures]|];
    [|discriminate].
  destruct (Py.min_list futures); [|discriminate].
  intros H; injection H as <-. cbn. repeat split.
Qed.

Lemma choose_solution_arbitrates (self self' : Planner M MM F)
  (v_cruise_setpoint : Q) (model_enabled : bool) :
  choose_solution self v_cruise_setpoint true model_enabled = Some self' ->
  arbitrated self' model_enabled.
Proof.
  unfold choose_solution, solutions_of, arbitrated.
  eligibility_cases self model_enabled.
  all: match goal with
       | |- context [Py.min_key ?k ?l] =>
           destruct (Py.min_key k l) as [slowest|] eqn:Emin;
           [eval_dict_in Emin; compare_keys_in Emin;
            injection Emin as <-; eval_keys
           |discriminate]
       end.
  all: match goal with
       | |- context [Py.min_list ?l] => destruct (Py.min_list l); [|discriminate]
       end.
  all: intros H; injection H as <-.
  all: first [ solve [solve_winner Cruise] | solve [solve_winner Lead1]
             | solve [solve_winner Lead2] | solve [solve_winner Model] ].
Qed.

(** When not enabled the arbiter only recomputes the future speed. *)
Lemma choose_solution_disabled (self : Planner M MM F) (v_cruise_setpoint : Q)
  (model_enabled : bool) :
  choose_solution self v_cruise_setpoint false model_enabled
  = Some (with_v_acc_future self
            (Py.min2 (Py.min2 (LongMpc.v_mpc_future (mpc1 self))
                              (LongMpc.v_mpc_future (mpc2 self)))
                     v_cruise_setpoint)).
Proof. reflexivity. Qed.

Lemma choose_solution_future (self self' : Planner M MM F)
  (v_cruise_setpoint : Q) (enabled model_enabled : bool) :
  choose_solution self v_cruise_setpoint enabled model_enabled = Some self' ->
  let three := Py.min2 (Py.min2 (LongMpc.v_mpc_future (mpc1 self))
                                (LongMpc.v_mpc_future (mpc2 self)))
                       v_cruise_setpoint in
  (v_acc_future self' = three
   \/ (enabled = true /\ eligible self model_enabled Model = true
       /\ v_acc_future self'
          = Py.min2 three (LongMpcModel.v_mpc_future (mpc_model self))))
  /\ (eligible self model_enabled Model = false -> v_acc_future self' = three).
Proof.
  unfold choose_solution. cbn [eligible].
  destruct enabled;
    destruct (LongMpcModel.valid (mpc_model self) && model_enabled) eqn:Emodel.
  1,2: destruct (Py.min_key _ _) as [slowest|]; [|discriminate];
       destruct (if String.eqb slowest "mpc1" then _ else _) as [v a].
  all: cbn [Py.min_list Py.min_key fold_left app].
  all: intros H; injection H as <-; cbn [v_acc_future].
  all: split; [|try discriminate; reflexivity].
  all: try (left; reflexivity).
  right. auto.
Qed.

Lemma three_futures_min (f1 f2 v : Q) :
  Py.min2 (Py.min2 f1 f2) v == Qmin (Qmin v f1) f2.
Proof.
  rewrite !min2_Qmin.
  pose proof (Q.le_min_l (Qmin f1 f2) v). pose proof (Q.le_min_r (Qmin f1 f2) v).
  pose proof (Q.le_min_l f1 f2). pose proof (Q.le_min_r f1 f2).
  pose proof (Q.le_min_l (Qmin v f1) f2). pose proof (Q.le_min_r (Qmin v f1) f2).
  pose proof (Q.le_min_l v f1). pose proof (Q.le_min_r v f1).
  apply Qle_antisym; repeat apply Q.min_glb; lra.
Qed.

(** ** One update cycle *)

(** What a completed cycle did, around the arbiter's call: [pre] is the state
    handed to [choose_solution] and [mid] the state it returned. *)
Lemma update_inv (self self' : Planner M MM F) (sm : SubMaster)
  (CP : CarParams) (env : Environment) :
  update self sm CP env = Some self' ->
  let enabled := is_enabled (longControlState (controlsState sm)) in
  exists pre mid,
    choose_solution pre (cruise_setpoint sm CP) enabled (ModelLongEnabled env)
    = Some mid
    /\ (engaged_normal enabled (first_loop self) (carState sm) = true ->
        v_acc pre = v_acc self /\ a_acc pre = a_acc self
        /\ v_acc_start pre = v_acc_next self
        /\ a_acc_start pre = a_acc_next self)
    /\ (engaged_normal enabled (first_loop self) (carState sm) = false ->
        v_acc pre = reset_speed self sm /\ a_acc pre = reset_accel self sm
        /\ v_acc_start pre = reset_speed self sm
        /\ a_acc_start pre = reset_accel self sm
        /\ v_cruise pre = reset_speed self sm
        /\ a_cruise pre = reset_accel self sm)
    /\ longitudinalPlanSource pre = longitudinalPlanSource self
    /\ fcw_checker pre = fcw_checker self
    /\ v_acc self' = v_acc mid /\ a_acc self' = a_acc mid
    /\ v_acc_future self' = v_acc_future mid
    /\ longitudinalPlanSource self' = longitudinalPlanSource mid
    /\ mpc1 self' = mpc1 mid /\ mpc2 self' = mpc2 mid
    /\ mpc_model self' = mpc_model mid
    /\ v_cruise self' = v_cruise mid /\ a_cruise self' = a_cruise mid
    /\ v_acc_start self' = v_acc_start mid
    /\ a_acc_start self' = a_acc_start mid
    /\ a_acc_next self'
       = a_acc_start mid
         + (radarTimeStep CP / LON_MPC_STEP) * (a_acc mid - a_acc_start mid)
    /\ v_acc_next self'
       = v_acc_start mid
         + radarTimeStep CP * (a_acc_next self' + a_acc_start mid) / 2.0
    /\ first_loop self' = false
    /\ fcw_checker self'
       = fst (FCW.update (checker_consulted mid (mpc1 mid) env)
                         (fcw_args (mpc1 mid) sm (sec_since_boot env)))
    /\ fcw self'
       = snd (FCW.update (checker_consulted mid (mpc1 mid) env)
                         (fcw_args (mpc1 mid) sm (sec_since_boot env)))
         && negb (brakePressed (carState sm)).
Proof.
  unfold update. cbv zeta.
  destruct (update_speed_map _ _) as [speed_map'|]; [|discriminate].
  destruct (engaged_normal _ _ _) eqn:Hengaged.
  - destruct (limit_accel_in_turns _ _ _ _) as [accel_limits_turns|];
      [|discriminate].
    destruct (speed_smoother _ _ _ _ _ _ _ _) as [v_cruise' a_cruise'].
    destruct (convert_data sm) as [[[distances speeds] accelerations]|];
      [|discriminate].
    destruct (choose_solution _ _ _ _) as [mid|] eqn:Hchoose; [|discriminate].
    unfold checker_consulted.
    destruct (FCW.update _ _) as [checker warned] eqn:Hfcw.
    intros H; injection H as <-.
    do 2 eexists. split; [exact Hchoose|].
    cbn. rewrite Hfcw.
    repeat (split; [first [reflexivity | discriminate | tauto]|]).
    reflexivity.
  - destruct (convert_data sm) as [[[distances speeds] accelerations]|];
      [|discriminate].
    destruct (choose_solution _ _ _ _) as [mid|] eqn:Hchoose; [|discriminate].
    unfold checker_consulted.
    destruct (FCW.update _ _) as [checker warned] eqn:Hfcw.
    intros H; injection H as <-.
    do 2 eexists. split; [exact Hchoose|].
    cbn. rewrite Hfcw.
    repeat (split; [first [reflexivity | discriminate | tauto]|]).
    reflexivity.
Qed.

Lemma publish_fields (self : Planner M MM F) (sm : SubMaster) (logMonoTime : Z) :
  let plan := snd (publish self sm logMonoTime) in
  vTarget plan = v_acc self /\ aTarget plan = a_acc self
  /\ vTargetFuture plan = v_acc_future self
  /\ longitudinalPlanSource_out plan = longitudinalPlanSource self
  /\ fcw_out plan = fcw self
  /\ vStart plan = v_acc_start self /\ aStart plan = a_acc_start self.
Proof.
  unfold publish. cbv zeta.
  match goal with
  | |- context [match ?triple with (_, _) => _ end] =>
      destruct triple as [[camera camera_dist] sign]
  end.
  cbn. repeat split.
Qed.

Lemma arbitrated_same_candidates (self self' : Planner M MM F)
  (model_enabled : bool) :
  mpc1 self' = mpc1 self -> mpc2 self' = mpc2 self ->
  mpc_model self' = mpc_model self ->
  v_cruise self' = v_cruise self -> a_cruise self' = a_cruise self ->
  v_acc self' = v_acc self -> a_acc self' = a_acc self ->
  longitudinalPlanSource self' = longitudinalPlanSource self ->
  arbitrated self model_enabled -> arbitrated self' model_enabled.
Proof.
  intros H1 H2 Hm Hv Ha Hva Haa Hs (w & Hel & Hlabel & Hspeed & Haccel & Hmin).
  assert (El : forall c, eligible self' model_enabled c
                         = eligible self model_enabled c)
    by (intros []; cbn; congruence).
  assert (Es : forall c, target_speed self' c = target_speed self c)
    by (intros []; cbn; congruence).
  assert (Ea : forall c, target_accel self' c = target_accel self c)
    by (intros []; cbn; congruence).
  exists w. rewrite El, Es, Ea, Hs, Hva, Haa.
  split; [exact Hel|]. split; [exact Hlabel|]. split; [exact Hspeed|].
  split; [exact Haccel|].
  intros c Hc. rewrite El in Hc. rewrite Es. apply Hmin. exact Hc.
Qed.

Lemma update_arbitrates (self self' : Planner M MM F) (sm : SubMaster)
  (CP : CarParams) (env : Environment) :
  update self sm CP env = Some self' ->
  is_enabled (longControlState (controlsState sm)) = true ->
  arbitrated self' (ModelLongEnabled env).
Proof.
  intros Hrun Henabled.
  destruct (update_inv _ _ _ _ _ Hrun)
    as (pre & mid & Hchoose & _ & _ & _ & _ & Hv & Ha & _ & Hs & H1 & H2 & Hm
        & Hvc & Hac & _).
  rewrite Henabled in Hchoose.
  apply (arbitrated_same_candidates mid); auto.
  apply (choose_solution_arbitrates _ _ _ _ Hchoose).
Qed.

Lemma arbitrated_at_most_cruise (self : Planner M MM F) (model_enabled : bool) :
  arbitrated self model_enabled -> v_acc self <= v_cruise self.
Proof.
  intros (w & _ & _ & Hspeed & _ & Hmin).
  rewrite Hspeed. apply (Hmin Cruise). reflexivity.
Qed.

(** C2: in an enabled cycle the arbiter's target is the eligible candidate of
    minimum target speed, the earliest in the order cruise, lead 1, lead 2,
    model among equals; its speed and acceleration become [v_acc], [a_acc]
    and its label the published plan source. *)
Theorem arbiter_selects_slowest :
  (forall (self : Planner M MM F) (v_cruise_setpoint : Q) (model_enabled : bool),
      exists self',
        choose_solution self v_cruise_setpoint true model_enabled = Some self'
        /\ arbitrated self' model_enabled
        /\ mpc1 self' = mpc1 self /\ mpc2 self' = mpc2 self
        /\ mpc_model self' = mpc_model self
        /\ v_cruise self' = v_cruise self /\ a_cruise self' = a_cruise self)
  /\ (forall (self self' : Planner M MM F) (sm : SubMaster) (CP : CarParams)
             (env : Environment) (logMonoTime : Z),
        update self sm CP env = Some self' ->
        is_enabled (longControlState (controlsState sm)) = true ->
        arbitrated self' (ModelLongEnabled env)
        /\ vTarget (snd (publish self' sm logMonoTime)) = v_acc self'
        /\ aTarget (snd (publish self' sm logMonoTime)) = a_acc self'
        /\ longitudinalPlanSource_out (snd (publish self' sm logMonoTime))
           = longitudinalPlanSource self').
Proof.
  split.
  - intros self v_cruise_setpoint model_enabled.
    destruct (choose_solution_total self v_cruise_setpoint true model_enabled)
      as [self' Hchoose].
    exists self'. split; [exact Hchoose|].
    split; [exact (choose_solution_arbitrates _ _ _ _ Hchoose)|].
    pose proof (choose_solution_frame _ _ _ _ _ Hchoose) as Hframe. tauto.
  - intros self self' sm CP env logMonoTime Hrun Henabled.
    split; [exact (update_arbitrates _ _ _ _ _ Hrun Henabled)|].
    pose proof (publish_fields self' sm logMonoTime) as Hpub.
    cbv zeta in Hpub. tauto.
Qed.

Lemma choose_solution_future_bound (self self' : Planner M MM F)
  (v_cruise_setpoint : Q) (enabled model_enabled : bool) :
  choose_solution self v_cruise_setpoint enabled model_enabled = Some self' ->
  v_acc_future self' <= min_future self v_cruise_setpoint
  /\ (eligible self model_enabled Model = false ->
      v_acc_future self' == min_future self v_cruise_setpoint)
  /\ (v_acc_future self' == min_future self v_cruise_setpoint
      \/ (eligible self model_enabled Model = true
          /\ v_acc_future self'
             == Qmin (min_future self v_cruise_setpoint)
                     (LongMpcModel.v_mpc_future (mpc_model self)))).
Proof.
  intros Hchoose.
  destruct (choose_solution_future _ _ _ _ _ Hchoose) as [Hcases Hthree].
  cbv zeta in Hcases, Hthree. unfold min_future.
  pose proof (three_futures_min (LongMpc.v_mpc_future (mpc1 self))
                (LongMpc.v_mpc_future (mpc2 self)) v_cruise_setpoint) as Hmin.
  split; [|split].
  - destruct Hcases as [->|(_ & _ & ->)].
    + rewrite Hmin. apply Qle_refl.
    + rewrite <- Hmin. apply min2_le_l.
  - intros Hmodel. rewrite (Hthree Hmodel). exact Hmin.
  - destruct Hcases as [->|(_ & Hmodel & ->)].
    + left. exact Hmin.
    + right. split; [exact Hmodel|]. rewrite min2_Qmin, Hmin. reflexivity.
Qed.


(** C4: when the cycle after a completed one is engaged-normal (enabled, no
    brake, no gas; the first-loop flag is already down), the warm start it
    reads is exactly the pair interpolated at the end of the completed cycle. *)
Theorem warm_start_continuity (self self1 self2 : Planner M MM F)
  (sm1 sm2 : SubMaster) (CP1 CP2 : CarParams) (env1 env2 : Environment) :
  update self sm1 CP1 env1 = Some self1 ->
  update self1 sm2 CP2 env2 = Some self2 ->
  is_enabled (longControlState (controlsState sm2)) = true ->
  brakePressed (carState sm2) = false ->
  gasPressed (carState sm2) = false ->
  first_loop self1 = false
  /\ v_acc_start self2 = v_acc_next self1
  /\ a_acc_start self2 = a_acc_next self1
  /\ a_acc_next self1
     = a_acc_start self1
       + (radarTimeStep CP1 / LON_MPC_STEP) * (a_acc self1 - a_acc_start self1)
  /\ v_acc_next self1
     = v_acc_start self1
       + radarTimeStep CP1 * (a_acc_next self1 + a_acc_start self1) / 2.0.
Proof.
  intros Hrun1 Hrun2 Henabled Hbrake Hgas.
  destruct (update_inv _ _ _ _ _ Hrun1)
    as (pre1 & mid1 & _ & _ & _ & _ & _ & _ & Ha1 & _ & _ & _ & _ & _ & _ & _
        & Hvs1 & Has1 & Han1 & Hvn1 & Hfirst & _).
  destruct (update_inv _ _ _ _ _ Hrun2)
    as (pre2 & mid2 & Hchoose2 & Hengaged & _ & _ & _ & _ & _ & _ & _ & _ & _
        & _ & _ & _ & Hvs2 & Has2 & _).
  pose proof (choose_solution_frame _ _ _ _ _ Hchoose2)
    as (_ & _ & _ & _ & Fv & Fa & _).
  assert (Hnormal : engaged_normal
                      (is_enabled (longControlState (controlsState sm2)))
                      (first_loop self1) (carState sm2) = true).
  { unfold engaged_normal. rewrite Henabled, Hfirst, Hbrake, Hgas. reflexivity. }
  destruct (Hengaged Hnormal) as (_ & _ & Hv & Ha).
  split; [exact Hfirst|].
  split; [congruence|]. split; [congruence|].
  rewrite Ha1, Has1, Hvs1. split; [exact Han1 | exact Hvn1].
Qed.

(** C8: the collision warning of a cycle is the warner's verdict and not
    brake pressed, hence false whenever the brake is pressed; it is the flag
    published. *)
Theorem fcw_gated_by_brake (self self' : Planner M MM F) (sm : SubMaster)
  (CP : CarParams) (env : Environment) (logMonoTime : Z) :
  update self sm CP env = Some self' ->
  fcw self'
  = snd (FCW.update (checker_consulted self (mpc1 self') env)
                    (fcw_args (mpc1 self') sm (sec_since_boot env)))
    && negb (brakePressed (carState sm))
  /\ (brakePressed (carState sm) = true -> fcw self' = false)
  /\ fcw_out (snd (publish self' sm logMonoTime)) = fcw self'.
Proof.
  intros Hrun.
  destruct (update_inv _ _ _ _ _ Hrun)
    as (pre & mid & Hchoose & _ & _ & _ & Hchecker & _ & _ & _ & _ & H1 & _ & _
        & _ & _ & _ & _ & _ & _ & _ & _ & Hfcw).
  pose proof (choose_solution_frame _ _ _ _ _ Hchoose)
    as (_ & _ & _ & _ & _ & _ & _ & _ & _ & _ & Fchecker & _).
  assert (Hgate : fcw self'
                  = snd (FCW.update (checker_consulted self (mpc1 self') env)
                           (fcw_args (mpc1 self') sm (sec_since_boot env)))
                    && negb (brakePressed (carState sm))).
  { rewrite Hfcw, H1. unfold checker_consulted.
    rewrite Fchecker, Hchecker. reflexivity. }
  split; [exact Hgate|]. split.
  - intros Hbrake. rewrite Hgate, Hbrake. apply andb_false_r.
  - pose proof (publish_fields self' sm logMonoTime) as Hpub.
    cbv zeta in Hpub. tauto.
Qed.

(** A cycle completes whenever its three fallible steps do: the speed-camera
    values parse, the vehicle geometry is not degenerate, and the model
    trajectory is absent or carries its samples. *)
Lemma update_completes (self : Planner M MM F) (sm : SubMaster)
  (CP : CarParams) (env : Environment) :
  update_speed_map (speed_map self) env <> None ->
  ~ steerRatio (self_CP self) * wheelbase (self_CP self) == 0 ->
  alive_modelV2 sm = false \/ x (position (modelV2 sm)) = []
  \/ carries_samples sm ->
  exists self', update self sm CP env = Some self'.
Proof.
  intros Hmap Hgeo Hmodel. unfold update. cbv zeta.
  destruct (update_speed_map _ _) as [speed_map'|]; [|contradiction].
  assert (Hconv : exists converted, convert_data sm = Some converted).
  { destruct (alive_modelV2 sm) eqn:Halive.
    - destruct Hmodel as [Hdead|[Hempty|Hcarries]]; [discriminate| |].
      + eexists. apply convert_data_absent. right. exact Hempty.
      + eexists. apply (convert_data_run sm Halive Hcarries).
    - eexists. apply convert_data_absent. left. exact Halive. }
  destruct Hconv as [[[distances speeds] accelerations] ->].
  destruct (engaged_normal _ _ _).
  - rewrite (limit_accel_in_turns_run _ _ _ _ Hgeo).
    destruct (speed_smoother _ _ _ _ _ _ _ _) as [v_cruise' a_cruise'].
    match goal with
    | |- context [choose_solution ?pre ?v ?e ?m] =>
        destruct (choose_solution_total pre v e m) as [mid ->]
    end.
    destruct (FCW.update _ _) as [checker warned]. eexists. reflexivity.
  - match goal with
    | |- context [choose_solution ?pre ?v ?e ?m] =>
        destruct (choose_solution_total pre v e m) as [mid ->]
    end.
    destruct (FCW.update _ _) as [checker warned]. eexists. reflexivity.
Qed.

Lemma enabled_not_starting (state : LongCtrlState) :
  is_enabled state = true -> LongCtrlState_eqb state starting = false.
Proof. destruct state; cbn; congruence. Qed.

(** C1 (as amended): in a cycle with the brake pressed the warm start and the
    cruise candidate are reset to the ego speed and min(ego acceleration, 0),
    or to the minimum speed and start acceleration in the starting state,
    whatever the previous cycles left.  When the planner is not enabled these
    are the published [v_acc], [a_acc]; when it is enabled the arbiter still
    runs on the candidates, the reset pair being the cruise candidate, so
    [v_acc] is the slowest eligible candidate's speed, at most the ego
    speed. *)
Theorem update_brake_override (self self' : Planner M MM F) (sm : SubMaster)
  (CP : CarParams) (env : Environment) :
  brakePressed (carState sm) = true ->
  update self sm CP env = Some self' ->
  v_acc_start self' = reset_speed self sm
  /\ a_acc_start self' = reset_accel self sm
  /\ v_cruise self' = reset_speed self sm
  /\ a_cruise self' = reset_accel self sm
  /\ (is_enabled (longControlState (controlsState sm)) = false ->
      v_acc self' = reset_speed self sm /\ a_acc self' = reset_accel self sm)
  /\ (LongCtrlState_eqb (longControlState (controlsState sm)) starting = false ->
      reset_speed self sm = vEgo (carState sm)
      /\ reset_accel self sm = Py.min2 (aEgo (carState sm)) 0.0)
  /\ (is_enabled (longControlState (controlsState sm)) = true ->
      arbitrated self' (ModelLongEnabled env)
      /\ v_acc self' <= vEgo (carState sm)).
Proof.
  intros Hbrake Hrun.
  destruct (update_inv _ _ _ _ _ Hrun)
    as (pre & mid & Hchoose & _ & Hreset & _ & _ & Hv & Ha & _ & _ & _ & _ & _
        & Hvc & Hac & Hvs & Has & _).
  cbv zeta in Hchoose, Hreset.
  assert (Hfallback : engaged_normal
                        (is_enabled (longControlState (controlsState sm)))
                        (first_loop self) (carState sm) = false).
  { unfold engaged_normal. rewrite Hbrake. cbn.
    rewrite andb_false_r. reflexivity. }
  destruct (Hreset Hfallback) as (Rv & Ra & Rvs & Ras & Rvc & Rac).
  pose proof (choose_solution_frame _ _ _ _ _ Hchoose)
    as (_ & _ & _ & _ & Fvs & Fas & _ & _ & Fvc & Fac & _).
  split; [congruence|]. split; [congruence|].
  split; [congruence|]. split; [congruence|].
  split; [|split].
  - intros Hdisabled. rewrite Hdisabled in Hchoose.
    rewrite choose_solution_disabled in Hchoose.
    injection Hchoose as <-. cbn in Hv, Ha. split; congruence.
  - intros Hstate. unfold reset_speed, reset_accel. rewrite Hstate.
    split; reflexivity.
  - intros Henabled.
    pose proof (update_arbitrates _ _ _ _ _ Hrun Henabled) as Harb.
    split; [exact Harb|].
    apply arbitrated_at_most_cruise in Harb.
    assert (Hcruise : v_cruise self' = vEgo (carState sm)).
    { rewrite Hvc, Fvc, Rvc. unfold reset_speed.
      rewrite (enabled_not_starting _ Henabled). reflexivity. }
    rewrite <- Hcruise. exact Harb.
Qed.

Lemma update_forceDecel (self : Planner M MM F) (sm1 sm2 : SubMaster)
  (CP : CarParams) (env : Environment) :
  same_but_forceDecel sm1 sm2 ->
  update self sm1 CP env = update self sm2 CP env.
Proof.
  intros (Hcar & Hstate & Hcruise & Hactive & Hradar & Hmodel & Halive & _).
  unfold update, cruise_setpoint, fcw_args, convert_data.
  rewrite !andb_false_r.
  rewrite Hcar, Hstate, Hcruise, Hactive, Hradar, Hmodel, Halive.
  reflexivity.
Qed.

Lemma publish_forceDecel (self : Planner M MM F) (sm1 sm2 : SubMaster)
  (logMonoTime : Z) :
  same_but_forceDecel sm1 sm2 ->
  publish self sm1 logMonoTime = publish self sm2 logMonoTime.
Proof.
  intros (_ & _ & _ & _ & Hradar & _ & _ & Hvalid & Hmd & Hrs & Hrcv).
  unfold publish.
  rewrite Hradar, Hvalid, Hmd, Hrs, Hrcv. reflexivity.
Qed.

(** C9: two snapshots that differ only in the force-slow-deceleration flag
    lead to the same planner state and the same published plan. *)
Theorem forceDecel_noninterference (self : Planner M MM F)
  (sm1 sm2 : SubMaster) (CP : CarParams) (env : Environment)
  (logMonoTime : Z) :
  same_but_forceDecel sm1 sm2 ->
  update self sm1 CP env = update self sm2 CP env
  /\ publish self sm1 logMonoTime = publish self sm2 logMonoTime
  /\ cycle self sm1 CP env logMonoTime = cycle self sm2 CP env logMonoTime.
Proof.
  intros Hsame.
  split; [exact (update_forceDecel _ _ _ _ _ Hsame)|].
  split; [exact (publish_forceDecel _ _ _ _ Hsame)|].
  unfold cycle. rewrite (update_forceDecel _ _ _ _ _ Hsame).
  destruct (update self sm2 CP env) as [self'|]; [|reflexivity].
  rewrite (publish_forceDecel _ _ _ _ Hsame). reflexivity.
Qed.

Lemma update_disabled_source (self self' : Planner M MM F) (sm : SubMaster)
  (CP : CarParams) (env : Environment) :
  update self sm CP env = Some self' ->
  is_enabled (longControlState (controlsState sm)) = false ->
  longitudinalPlanSource self' = longitudinalPlanSource self.
Proof.
  intros Hrun Hdisabled.
  destruct (update_inv _ _ _ _ _ Hrun)
    as (pre & mid & Hchoose & _ & _ & Hsource & _ & _ & _ & _ & Hs & _).
  cbv zeta in Hchoose. rewrite Hdisabled, choose_solution_disabled in Hchoose.
  injection Hchoose as <-. cbn in Hs. congruence.
Qed.



End PlannerFacts.

(** ** The planner on concrete cycles *)

(** The specification's arbitration example: cruise at 10 m/s, lead 1
    eligible at 7 m/s, model ineligible; lead 1 is selected. *)
Example arbitration_example :
  exists self',
    update Canned.planner0
      (Canned.snapshot (Canned.car false false) pid false (Canned.lead 7) [] [])
      Canned.CP Canned.env = Some self'
    /\ v_cruise self' = 10
    /\ target_speed self' Lead1 = 7
    /\ eligible self' false Lead1 = true
    /\ eligible self' false Lead2 = false
    /\ eligible self' false Model = false
    /\ longitudinalPlanSource self' = "mpc1"%string
    /\ v_acc self' = 7.
Proof. eexists. split; [vm_compute; reflexivity|]. repeat split. Qed.

(** C1, as stated, fails.  With the brake pressed in the starting state the
    plan is reset to the configured minimum speed (0.3), not the ego speed
    (10); with the brake pressed while enabled and a slower lead tracked, the
    arbiter still runs and the lead solver's 5 m/s is published. *)
Lemma update_brake_not_ego_speed :
  (exists self',
      update Canned.planner0 (Canned.braking starting Canned.no_lead)
        Canned.CP Canned.env = Some self'
      /\ brakePressed (carState (Canned.braking starting Canned.no_lead)) = true
      /\ vEgo (carState (Canned.braking starting Canned.no_lead)) = 10
      /\ v_acc self' = 0.3
      /\ ~ v_acc self' == 10)
  /\ (exists self',
        update Canned.planner0 (Canned.braking pid Canned.slow_lead)
          Canned.CP Canned.env = Some self'
        /\ brakePressed (carState (Canned.braking pid Canned.slow_lead)) = true
        /\ vEgo (carState (Canned.braking pid Canned.slow_lead)) = 10
        /\ longitudinalPlanSource self' = "mpc1"%string
        /\ v_acc self' = 5
        /\ ~ v_acc self' == 10).
Proof.
  split; eexists; (split; [vm_compute; reflexivity|]);
    repeat (split; [reflexivity|]); vm_compute; discriminate.
Qed.

Lemma update_brake_override_witness :
  exists self',
    update Canned.planner0 (Canned.braking off Canned.slow_lead)
      Canned.CP Canned.env = Some self'
    /\ v_acc self' = 10 /\ a_acc self' = Py.min2 0.5 0.0.
Proof.
  destruct (update Canned.planner0 (Canned.braking off Canned.slow_lead)
              Canned.CP Canned.env) as [self'|] eqn:Hrun;
    [|vm_compute in Hrun; discriminate].
  exists self'. split; [reflexivity|].
  destruct (update_brake_override
              Canned.planner0 self' (Canned.braking off Canned.slow_lead)
              Canned.CP Canned.env eq_refl Hrun)
    as (_ & _ & _ & _ & Hdisabled & _).
  exact (Hdisabled eq_refl).
Defined.

Lemma arbiter_selects_slowest_witness :
  exists self',
    update Canned.planner0 (Canned.cruising false Canned.slow_lead)
      Canned.CP Canned.env = Some self'
    /\ arbitrated self' false.
Proof.
  destruct (update Canned.planner0
              (Canned.cruising false Canned.slow_lead) Canned.CP Canned.env)
    as [self'|] eqn:Hrun; [|vm_compute in Hrun; discriminate].
  exists self'. split; [reflexivity|].
  exact (proj1 (proj2 arbiter_selects_slowest
                  Canned.planner0 self'
                  (Canned.cruising false Canned.slow_lead)
                  Canned.CP Canned.env 0%Z Hrun eq_refl)).
Defined.


Lemma warm_start_continuity_witness :
  exists self1 self2,
    update Canned.planner0 (Canned.cruising false Canned.slow_lead)
      Canned.CP Canned.env = Some self1
    /\ update self1 (Canned.cruising false Canned.slow_lead)
         Canned.CP Canned.env = Some self2
    /\ v_acc_start self2 = v_acc_next self1
    /\ a_acc_start self2 = a_acc_next self1.
Proof.
  destruct (update Canned.planner0
              (Canned.cruising false Canned.slow_lead) Canned.CP Canned.env)
    as [self1|] eqn:Hrun1; [|vm_compute in Hrun1; discriminate].
  destruct (update self1 (Canned.cruising false Canned.slow_lead)
              Canned.CP Canned.env) as [self2|] eqn:Hrun2.
  - exists self1, self2. split; [reflexivity|]. split; [exact Hrun2|].
    destruct (warm_start_continuity
                Canned.planner0 self1 self2 _ _ _ _ _ _
                Hrun1 Hrun2 eq_refl eq_refl eq_refl)
      as (_ & Hv & Ha & _).
    split; [exact Hv | exact Ha].
  - exfalso. vm_compute in Hrun1. injection Hrun1 as <-.
    vm_compute in Hrun2. discriminate.
Defined.

Lemma fcw_gated_by_brake_witness :
  exists self',
    update Canned.planner0 (Canned.braking pid Canned.slow_lead)
      Canned.CP Canned.env = Some self'
    /\ fcw self' = false.
Proof.
  destruct (update Canned.planner0 (Canned.braking pid Canned.slow_lead)
              Canned.CP Canned.env) as [self'|] eqn:Hrun;
    [|vm_compute in Hrun; discriminate].
  exists self'. split; [reflexivity|].
  destruct (fcw_gated_by_brake
              Canned.planner0 self' (Canned.braking pid Canned.slow_lead)
              Canned.CP Canned.env 0%Z Hrun)
    as (_ & Hbrake & _).
  exact (Hbrake eq_refl).
Defined.

Lemma forceDecel_noninterference_witness :
  update Canned.planner0 (Canned.cruising false Canned.slow_lead)
    Canned.CP Canned.env
  = update Canned.planner0 (Canned.cruising true Canned.slow_lead)
      Canned.CP Canned.env.
Proof.
  assert (Hsame : same_but_forceDecel (Canned.cruising false Canned.slow_lead)
                                      (Canned.cruising true Canned.slow_lead))
    by (unfold same_but_forceDecel; repeat split).
  exact (proj1 (forceDecel_noninterference
                  Canned.planner0 _ _ Canned.CP Canned.env 0%Z Hsame)).
Defined.


(** * Further properties of the planner's code *)

(** ** The cruise acceleration tables *)

Lemma lerp_mono (v xlo xhi flo fhi glo ghi : Q) :
  xlo < v -> v <= xhi -> flo <= glo -> fhi <= ghi ->
  (v - xlo) * (fhi - flo) / (xhi - xlo) + flo
  <= (v - xlo) * (ghi - glo) / (xhi - xlo) + glo.
Proof.
  intros H1 H2 Hlo Hhi.
  assert (Hd : 0 < xhi - xlo) by lra.
  set (t := (v - xlo) / (xhi - xlo)).
  assert (Ht : 0 <= t <= 1).
  { unfold t. split.
    - apply Qle_shift_div_l; [exact Hd | lra].
    - apply Qle_shift_div_r; [exact Hd | lra]. }
  setoid_replace ((v - xlo) * (fhi - flo) / (xhi - xlo) + flo)
    with (t * fhi + (1 - t) * flo) by (unfold t; field; lra).
  setoid_replace ((v - xlo) * (ghi - glo) / (xhi - xlo) + glo)
    with (t * ghi + (1 - t) * glo) by (unfold t; field; lra).
  nra.
Qed.

(** The cruise tables keep the lower acceleration bound within [-2.7, -0.3]. *)
Lemma a_cruise_min_bounds (v_ego : Q) (following : bool) :
  -2.7 <= fst (calc_cruise_accel_limits v_ego following) <= -0.3.
Proof.
  unfold calc_cruise_accel_limits, interp, _A_CRUISE_MIN_BP,
    _A_CRUISE_MIN_V, _A_CRUISE_MIN_V_FOLLOWING.
  destruct following; simpl; by_comparisons; try lra;
    apply lerp_between; lra.
Qed.

(** X1: at every ego speed, following or not, the cruise limits are a
    deceleration bound within [-2.7, -0.3] and an acceleration bound within
    [0.4, 1.6]; the window always contains zero in its interior. *)
Theorem calc_cruise_accel_limits_bounds (v_ego : Q) (following : bool) :
  let limits := calc_cruise_accel_limits v_ego following in
  -2.7 <= fst limits <= -0.3 /\ 0.4 <= snd limits <= 1.6
  /\ fst limits < 0 /\ 0 < snd limits /\ fst limits < snd limits.
Proof.
  pose proof (a_cruise_min_bounds v_ego following) as Hmin.
  pose proof (a_cruise_max_bounds v_ego following) as Hmax.
  cbv zeta. repeat split; lra.
Qed.

(** X2: at every ego speed the limits while following a lead are at least as
    wide as those without: a lower (or equal) deceleration bound and a higher
    (or equal) acceleration bound. *)
Theorem calc_cruise_accel_limits_following (v_ego : Q) :
  fst (calc_cruise_accel_limits v_ego true)
  <= fst (calc_cruise_accel_limits v_ego false)
  /\ snd (calc_cruise_accel_limits v_ego false)
     <= snd (calc_cruise_accel_limits v_ego true).
Proof.
  unfold calc_cruise_accel_limits, interp, _A_CRUISE_MIN_BP, _A_CRUISE_MAX_BP,
    _A_CRUISE_MIN_V, _A_CRUISE_MIN_V_FOLLOWING, _A_CRUISE_MAX_V,
    _A_CRUISE_MAX_V_FOLLOWING.
  simpl. split; by_comparisons; try lra; apply lerp_mono; lra.
Qed.

(** X3: the jerk limits [update] derives, min(-0.1, a_min) and
    max(0.1, a_max), are the cruise limits themselves at every ego speed: the
    clamps at -0.1 and 0.1 never act. *)
Theorem jerk_limits_are_accel_limits (v_ego : Q) (following : bool) :
  let accel_limits := calc_cruise_accel_limits v_ego following in
  Py.min2 (-0.1) (fst accel_limits) = fst accel_limits
  /\ Py.max2 0.1 (snd accel_limits) = snd accel_limits.
Proof.
  pose proof (a_cruise_min_bounds v_ego following) as Hmin.
  pose proof (a_cruise_max_bounds v_ego following) as Hmax.
  cbv zeta. unfold Py.min2, Py.max2.
  by_comparisons; split; try reflexivity; lra.
Qed.

(** ** Cycles through the cruise and the fallback branch *)

Section PlannerCycles.

Context {M MM F Sol : Type}.
Context {MpcI : LongMpc.Interface M Sol}.
Context {ModelI : LongMpcModel.Interface MM}.
Context {FcwI : FCW.Interface F Sol}.
Context {Ext : Externals}.

(** What the cruise branch of a completed cycle computed. *)
Lemma update_engaged_inv (self self' : Planner M MM F) (sm : SubMaster)
  (CP : CarParams) (env : Environment) :
  update self sm CP env = Some self' ->
  engaged_normal (is_enabled (longControlState (controlsState sm)))
                 (first_loop self) (carState sm) = true ->
  let v_ego := vEgo (carState sm) in
  let lead_1 := leadOne (radarState sm) in
  let following :=
    status lead_1 && Py.lt (dRel lead_1) 45.0 && Py.gt (vLeadK lead_1) v_ego
    && Py.gt (aLeadK lead_1) 0.0 in
  let accel_limits := calc_cruise_accel_limits v_ego following in
  exists accel_limits_turns,
    limit_accel_in_turns v_ego (steeringAngleDeg (carState sm)) accel_limits
                         (self_CP self) = Some accel_limits_turns
    /\ let smoothed :=
         speed_smoother (v_acc_next self) (a_acc_next self)
                        (cruise_setpoint sm CP)
                        (snd accel_limits_turns) (fst accel_limits_turns)
                        (Py.max2 0.1 (snd accel_limits))
                        (Py.min2 (-0.1) (fst accel_limits)) LON_MPC_STEP in
       v_cruise self' = Py.max2 (fst smoothed) 0
       /\ a_cruise self' = snd smoothed.
Proof.
  intros Hrun Hengaged. revert Hrun. unfold update. cbv zeta.
  destruct (update_speed_map _ _) as [speed_map'|]; [|discriminate].
  rewrite Hengaged, andb_false_r.
  destruct (limit_accel_in_turns _ _ _ _) as [accel_limits_turns|] eqn:Hturns;
    [|discriminate].
  cbn [fst snd].
  destruct (speed_smoother _ _ _ _ _ _ _ _) as [v_cruise' a_cruise'] eqn:Hsmooth.
  destruct (convert_data sm) as [[[distances speeds] accelerations]|];
    [|discriminate].
  destruct (choose_solution _ _ _ _) as [mid|] eqn:Hchoose; [|discriminate].
  destruct (FCW.update _ _) as [checker warned].
  intros H; injection H as <-.
  pose proof (choose_solution_frame _ _ _ _ _ Hchoose)
    as (_ & _ & _ & _ & _ & _ & _ & _ & Fvc & Fac & _).
  cbn in Fvc, Fac.
  exists accel_limits_turns. split; [reflexivity|].
  cbn [v_cruise a_cruise]. rewrite Fvc, Fac, Hsmooth. split; reflexivity.
Qed.

(** X6: after a completed engaged-normal cycle the cruise candidate's speed
    is never negative, whatever the smoother returned. *)
Theorem update_cruise_speed_nonneg (self self' : Planner M MM F)
  (sm : SubMaster) (CP : CarParams) (env : Environment) :
  update self sm CP env = Some self' ->
  engaged_normal (is_enabled (longControlState (controlsState sm)))
                 (first_loop self) (carState sm) = true ->
  0 <= v_cruise self'.
Proof.
  intros Hrun Hengaged.
  destruct (update_engaged_inv _ _ _ _ _ Hrun Hengaged)
    as (turns & _ & Hv & _).
  rewrite Hv. apply max2_ge_r.
Qed.


(** X7: a completed cycle that is not enabled, or is the planner's first, or
    has the brake or the gas pressed, resets the warm start and the cruise
    candidate to the reset pair (ego speed and min(ego acceleration, 0), or
    the minimum speed and start acceleration in the starting state); outside
    the starting state the warm-start acceleration is never positive. *)
Theorem update_fallback_resets (self self' : Planner M MM F) (sm : SubMaster)
  (CP : CarParams) (env : Environment) :
  update self sm CP env = Some self' ->
  is_enabled (longControlState (controlsState sm)) = false
  \/ first_loop self = true
  \/ brakePressed (carState sm) = true
  \/ gasPressed (carState sm) = true ->
  v_acc_start self' = reset_speed self sm
  /\ a_acc_start self' = reset_accel self sm
  /\ v_cruise self' = reset_speed self sm
  /\ a_cruise self' = reset_accel self sm
  /\ target_speed self' Cruise = v_acc_start self'
  /\ (LongCtrlState_eqb (longControlState (controlsState sm)) starting = false ->
      a_acc_start self' <= 0).
Proof.
  intros Hrun Hwhy.
  destruct (update_inv _ _ _ _ _ Hrun)
    as (pre & mid & Hchoose & _ & Hreset & _ & _ & _ & _ & _ & _ & _ & _ & _
        & Hvc & Hac & Hvs & Has & _).
  cbv zeta in Hchoose, Hreset.
  assert (Hfallback : engaged_normal
                        (is_enabled (longControlState (controlsState sm)))
                        (first_loop self) (carState sm) = false).
  { unfold engaged_normal.
    destruct Hwhy as [-> | [-> | [-> | ->]]]; cbn;
      rewrite ?andb_false_r; reflexivity. }
  destruct (Hreset Hfallback) as (_ & _ & Rvs & Ras & Rvc & Rac).
  pose proof (choose_solution_frame _ _ _ _ _ Hchoose)
    as (_ & _ & _ & _ & Fvs & Fas & _ & _ & Fvc & Fac & _).
  assert (E1 : v_acc_start self' = reset_speed self sm) by congruence.
  assert (E2 : a_acc_start self' = reset_accel self sm) by congruence.
  assert (E3 : v_cruise self' = reset_speed self sm) by congruence.
  assert (E4 : a_cruise self' = reset_accel self sm) by congruence.
  split; [exact E1|]. split; [exact E2|]. split; [exact E3|].
  split; [exact E4|]. split.
  - cbn [target_speed]. congruence.
  - intros Hstate. rewrite E2. unfold reset_accel. rewrite Hstate.
    pose proof (min2_le_r (aEgo (carState sm)) 0.0). lra.
Qed.

(** X8: after a completed cycle that is not enabled the target is the reset
    pair, the next warm-start acceleration equals the reset acceleration and
    the next warm-start speed is the reset speed advanced by one radar step
    at that acceleration. *)
Theorem update_disabled_extrapolates (self self' : Planner M MM F)
  (sm : SubMaster) (CP : CarParams) (env : Environment) :
  update self sm CP env = Some self' ->
  is_enabled (longControlState (controlsState sm)) = false ->
  v_acc self' = reset_speed self sm
  /\ a_acc self' = reset_accel self sm
  /\ a_acc_next self' == reset_accel self sm
  /\ v_acc_next self'
     == reset_speed self sm + radarTimeStep CP * reset_accel self sm.
Proof.
  intros Hrun Hdisabled.
  destruct (update_inv _ _ _ _ _ Hrun)
    as (pre & mid & Hchoose & _ & Hreset & _ & _ & Hv & Ha & _ & _ & _ & _ & _
        & _ & _ & Hvs & Has & Han & Hvn & _).
  cbv zeta in Hchoose, Hreset.
  assert (Hfallback : engaged_normal
                        (is_enabled (longControlState (controlsState sm)))
                        (first_loop self) (carState sm) = false)
    by (rewrite Hdisabled; reflexivity).
  destruct (Hreset Hfallback) as (Rv & Ra & Rvs & Ras & _).
  rewrite Hdisabled, choose_solution_disabled in Hchoose.
  injection Hchoose as <-. cbn in Hv, Ha, Hvs, Has, Han, Hvn.
  split; [congruence|]. split; [congruence|].
  assert (En : a_acc_next self' == reset_accel self sm).
  { rewrite Han, Ra, Ras. ring. }
  split; [exact En|].
  rewrite Hvn, En, Rvs, Ras. unfold Qdiv. 
  setoid_replace (/ 2.0) with (1 # 2) by reflexivity. ring.
Qed.


(** X10: with a non-negative km/h-to-m/s factor the cruise setpoint never
    exceeds the converted maximum cruise speed, and neither does the future
    speed of any completed cycle. *)
Theorem cruise_setpoint_capped (sm : SubMaster) (CP : CarParams) :
  0 <= KPH_TO_MS CV ->
  cruise_setpoint sm CP <= V_CRUISE_MAX * KPH_TO_MS CV
  /\ forall (self self' : Planner M MM F) (env : Environment),
       update self sm CP env = Some self' ->
       v_acc_future self' <= V_CRUISE_MAX * KPH_TO_MS CV.
Proof.
  intros Hk.
  assert (Hcap : cruise_setpoint sm CP <= V_CRUISE_MAX * KPH_TO_MS CV).
  { unfold cruise_setpoint.
    match goal with
    | |- Py.min2 ?a ?b * _ <= _ => pose proof (min2_le_r a b)
    end.
    nra. }
  split; [exact Hcap|].
  intros self self' env Hrun.
  destruct (update_inv _ _ _ _ _ Hrun)
    as (pre & mid & Hchoose & _ & _ & _ & _ & _ & _ & Hf & _).
  cbv zeta in Hchoose.
  destruct (choose_solution_future_bound _ _ _ _ _ Hchoose) as (Hle & _).
  rewrite Hf. unfold min_future in Hle.
  pose proof (Q.le_min_l (Qmin (cruise_setpoint sm CP)
                                (LongMpc.v_mpc_future (mpc1 pre)))
                         (LongMpc.v_mpc_future (mpc2 pre))).
  pose proof (Q.le_min_l (cruise_setpoint sm CP)
                         (LongMpc.v_mpc_future (mpc1 pre))).
  lra.
Qed.

End PlannerCycles.

(** ** Runs, failures and the arbiter applied twice *)

Section PlannerRuns.

Context {M MM F Sol : Type}.
Context {MpcI : LongMpc.Interface M Sol}.
Context {ModelI : LongMpcModel.Interface MM}.
Context {FcwI : FCW.Interface F Sol}.
Context {Ext : Externals}.

Lemma update_source_known (self self' : Planner M MM F) (sm : SubMaster)
  (CP : CarParams) (env : Environment) :
  update self sm CP env = Some self' ->
  (exists c, longitudinalPlanSource self = label c) ->
  exists c, longitudinalPlanSource self' = label c.
Proof.
  intros Hrun [c Hc].
  destruct (is_enabled (longControlState (controlsState sm))) eqn:Henabled.
  - destruct (update_arbitrates _ _ _ _ _ Hrun Henabled) as (w & _ & Hw & _).
    exists w. exact Hw.
  - exists c. rewrite (update_disabled_source _ _ _ _ _ Hrun Henabled).
    exact Hc.
Qed.

(** X11: from construction on, through any sequence of completed cycles, the
    plan source is one of the four labels cruise, mpc1, mpc2, model. *)
Theorem run_plan_source_known
  (inputs : list (SubMaster * CarParams * Environment))
  (CP0 : CarParams) (offset : Z) (self' : Planner M MM F) :
  run (Planner_init CP0 offset) inputs = Some self' ->
  exists c, longitudinalPlanSource self' = label c.
Proof.
  assert (Hgen : forall self : Planner M MM F,
             (exists c, longitudinalPlanSource self = label c) ->
             run self inputs = Some self' ->
             exists c, longitudinalPlanSource self' = label c).
  { induction inputs as [|[[sm CP] env] rest IH]; intros self Hknown Hrun.
    - injection Hrun as <-. exact Hknown.
    - cbn [run] in Hrun.
      destruct (update self sm CP env) as [next|] eqn:Hstep; [|discriminate].
      apply (IH next); [|exact Hrun].
      exact (update_source_known _ _ _ _ _ Hstep Hknown). }
  intros Hrun. apply (Hgen (Planner_init CP0 offset)); [|exact Hrun].
  exists Cruise. reflexivity.
Qed.



Lemma rank_injective (c1 c2 : Candidate) : rank c1 = rank c2 -> c1 = c2.
Proof. destruct c1, c2; cbn; congruence. Qed.

(** The arbitration rule leaves one result: two plans arbitrated over the
    same candidates have the same target and source. *)
Lemma arbitrated_unique (s1 s2 : Planner M MM F) (model_enabled : bool) :
  mpc1 s2 = mpc1 s1 -> mpc2 s2 = mpc2 s1 -> mpc_model s2 = mpc_model s1 ->
  v_cruise s2 = v_cruise s1 -> a_cruise s2 = a_cruise s1 ->
  arbitrated s1 model_enabled -> arbitrated s2 model_enabled ->
  v_acc s2 = v_acc s1 /\ a_acc s2 = a_acc s1
  /\ longitudinalPlanSource s2 = longitudinalPlanSource s1.
Proof.
  intros H1 H2 Hm Hv Ha (w1 & El1 & L1 & S1 & A1 & Min1)
         (w2 & El2 & L2 & S2 & A2 & Min2).
  assert (El : forall c, eligible s2 model_enabled c
                         = eligible s1 model_enabled c)
    by (intros []; cbn; congruence).
  assert (Es : forall c, target_speed s2 c = target_speed s1 c)
    by (intros []; cbn; congruence).
  assert (Ea : forall c, target_accel s2 c = target_accel s1 c)
    by (intros []; cbn; congruence).
  assert (Hw : w1 = w2).
  { apply rank_injective.
    rewrite El in El2.
    destruct (Min1 w2 El2) as [Hle1 Hlt1].
    destruct (Min2 w1) as [Hle2 Hlt2]; [rewrite El; exact El1|].
    rewrite !Es in Hle2, Hlt2.
    destruct (Nat.lt_trichotomy (rank w1) (rank w2)) as [Hlt|[Heq|Hgt]].
    - specialize (Hlt2 Hlt). lra.
    - exact Heq.
    - specialize (Hlt1 Hgt). lra. }
  subst w2. rewrite S1, S2, A1, A2, L1, L2, Es, Ea. repeat split.
Qed.

Lemma planner_eq (s1 s2 : Planner M MM F) :
  self_CP s1 = self_CP s2 -> mpc1 s1 = mpc1 s2 -> mpc2 s1 = mpc2 s2 ->
  mpc_model s1 = mpc_model s2 ->
  v_acc_start s1 = v_acc_start s2 -> a_acc_start s1 = a_acc_start s2 ->
  v_acc_next s1 = v_acc_next s2 -> a_acc_next s1 = a_acc_next s2 ->
  v_acc s1 = v_acc s2 -> v_acc_future s1 = v_acc_future s2 ->
  a_acc s1 = a_acc s2 -> v_cruise s1 = v_cruise s2 ->
  a_cruise s1 = a_cruise s2 ->
  longitudinalPlanSource s1 = longitudinalPlanSource s2 ->
  fcw_checker s1 = fcw_checker s2 -> fcw s1 = fcw s2 ->
  first_loop s1 = first_loop s2 -> speed_map s1 = speed_map s2 ->
  tartget_speed_offset s1 = tartget_speed_offset s2 -> vego s1 = vego s2 ->
  s1 = s2.
Proof. destruct s1, s2; cbn; intros; subst; reflexivity. Qed.

(** The future speed the arbiter writes, as a function of its inputs. *)
Lemma choose_solution_future_value (self self' : Planner M MM F)
  (v_cruise_setpoint : Q) (enabled model_enabled : bool) :
  choose_solution self v_cruise_setpoint enabled model_enabled = Some self' ->
  v_acc_future self'
  = let three := Py.min2 (Py.min2 (LongMpc.v_mpc_future (mpc1 self))
                                  (LongMpc.v_mpc_future (mpc2 self)))
                         v_cruise_setpoint in
    if enabled && (LongMpcModel.valid (mpc_model self) && model_enabled)
    then Py.min2 three (LongMpcModel.v_mpc_future (mpc_model self))
    else three.
Proof.
  unfold choose_solution.
  destruct enabled;
    destruct (LongMpcModel.valid (mpc_model self) && model_enabled).
  1,2: destruct (Py.min_key _ _) as [slowest|]; [|discriminate];
       destruct (if String.eqb slowest "mpc1" then _ else _) as [v a].
  all: cbn [Py.min_list Py.min_key fold_left app andb].
  all: intros H; injection H as <-; reflexivity.
Qed.

(** X13: running the arbiter again on its own result, with the same setpoint
    and flags, changes nothing. *)
Theorem choose_solution_idempotent (self self' : Planner M MM F)
  (v_cruise_setpoint : Q) (enabled model_enabled : bool) :
  choose_solution self v_cruise_setpoint enabled model_enabled = Some self' ->
  choose_solution self' v_cruise_setpoint enabled model_enabled = Some self'.
Proof.
  intros Hfirst.
  destruct (choose_solution_total self' v_cruise_setpoint enabled model_enabled)
    as [self'' Hsecond].
  rewrite Hsecond. f_equal.
  pose proof (choose_solution_frame _ _ _ _ _ Hfirst) as F1.
  pose proof (choose_solution_frame _ _ _ _ _ Hsecond) as F2.
  pose proof (choose_solution_future_value _ _ _ _ _ Hfirst) as V1.
  pose proof (choose_solution_future_value _ _ _ _ _ Hsecond) as V2.
  destruct F1 as (A1 & A2 & A3 & A4 & A5 & A6 & A7 & A8 & A9 & A10 & A11 & A12
                  & A13 & A14 & A15 & A16).
  destruct F2 as (B1 & B2 & B3 & B4 & B5 & B6 & B7 & B8 & B9 & B10 & B11 & B12
                  & B13 & B14 & B15 & B16).
  rewrite A2, A3, A4 in V2.
  assert (Htarget : v_acc self'' = v_acc self' /\ a_acc self'' = a_acc self'
                    /\ longitudinalPlanSource self''
                       = longitudinalPlanSource self').
  { destruct enabled.
    - apply (arbitrated_unique self' self'' model_enabled); auto.
      + apply (arbitrated_same_candidates self'); auto.
        exact (choose_solution_arbitrates _ _ _ _ Hfirst).
      + exact (choose_solution_arbitrates _ _ _ _ Hsecond).
    - rewrite choose_solution_disabled in Hsecond.
      injection Hsecond as <-. repeat split. }
  destruct Htarget as (T1 & T2 & T3).
  apply planner_eq; congruence.
Qed.

End PlannerRuns.

(** ** More on the trajectory adapter *)

Lemma comprehension_none {A : Type} (samples : list A) (idxs : list nat)
  (i : nat) :
  In i idxs -> (List.length samples <= i)%nat ->
  Py.comprehension (Py.index samples) idxs = None.
Proof.
  intros Hin Hshort.
  induction idxs as [|j idxs IH]; [contradiction|].
  cbn [Py.comprehension].
  destruct Hin as [->|Hin].
  - unfold Py.index at 1.
    rewrite (proj2 (nth_error_None samples i) Hshort). reflexivity.
  - rewrite (IH Hin). destruct (Py.index samples j); reflexivity.
Qed.

Lemma resample_short (samples : list Q) :
  (List.length samples < 31)%nat ->
  Py.comprehension (Py.index samples) model_t_idx = None.
Proof.
  intros Hshort. apply (comprehension_none samples model_t_idx 30%nat).
  - rewrite model_t_idx_eq. cbn. tauto.
  - lia.
Qed.

(** X14: the adapter raises exactly when the trajectory is alive, has at
    least one position sample, and has fewer than 31 velocity or fewer than
    31 position samples. *)
Theorem convert_data_fails_iff (sm : SubMaster) :
  convert_data sm = None
  <-> alive_modelV2 sm = true
      /\ x (position (modelV2 sm)) <> []
      /\ ((List.length (x (velocity (modelV2 sm))) < 31)%nat
          \/ (List.length (x (position (modelV2 sm))) < 31)%nat).
Proof.
  split.
  - intros Hnone.
    destruct (alive_modelV2 sm) eqn:Halive.
    + destruct (x (position (modelV2 sm))) as [|p ps] eqn:Hpos.
      * rewrite convert_data_absent in Hnone by (right; exact Hpos).
        discriminate.
      * split; [reflexivity|]. split; [discriminate|].
        destruct (le_lt_dec 31 (List.length (x (velocity (modelV2 sm)))))
          as [Hv|Hv]; [|left; exact Hv].
        destruct (le_lt_dec 31 (List.length (p :: ps))) as [Hp|Hp];
          [|right; exact Hp].
        rewrite convert_data_run in Hnone;
          [discriminate | exact Halive |].
        split; [rewrite Hpos; exact Hp | exact Hv].
    + rewrite convert_data_absent in Hnone by (left; exact Halive).
      discriminate.
  - intros (Halive & Hpos & Hshort). unfold convert_data. cbv zeta.
    assert (Hfull : (List.length (x (position (modelV2 sm))) =? 0)%nat = false).
    { apply Nat.eqb_neq. intros Hlen. apply Hpos.
      now apply length_zero_iff_nil. }
    rewrite Halive, Hfull. cbn [negb orb].
    destruct (le_lt_dec 31 (List.length (x (velocity (modelV2 sm)))))
      as [Hv|Hv].
    + rewrite (resample_run _ Hv).
      destruct Hshort as [Hbad|Hbad]; [lia|].
      rewrite (resample_short _ Hbad). reflexivity.
    + rewrite (resample_short _ Hv). reflexivity.
Qed.

Lemma nth_map_within (f : Q -> Q) (samples : list Q) (i : nat) :
  (i < List.length samples)%nat ->
  nth i (map f samples) 0 = f (nth i samples 0).
Proof.
  intros Hi. rewrite (nth_indep _ 0 (f 0)) by (rewrite length_map; exact Hi).
  apply map_nth.
Qed.

Lemma resample_map (f : Q -> Q) (samples : list Q) :
  (31 <= List.length samples)%nat ->
  resample (map f samples) = map f (resample samples).
Proof.
  intros Hlen. unfold resample. rewrite model_t_idx_eq.
  cbn [map]. rewrite !nth_map_within by lia. reflexivity.
Qed.

(** X15: raising every velocity sample of a trajectory by the same amount
    raises the resampled speeds by that amount and leaves the ten derived
    accelerations unchanged. *)
Theorem convert_data_offset_invariant (sm1 sm2 : SubMaster) (c : Q) :
  alive_modelV2 sm1 = true -> alive_modelV2 sm2 = true ->
  carries_samples sm1 -> carries_samples sm2 ->
  x (velocity (modelV2 sm2))
  = map (fun v => v + c) (x (velocity (modelV2 sm1))) ->
  exists d1 s1 a1 d2 s2 a2,
    convert_data sm1 = Some (d1, s1, a1)
    /\ convert_data sm2 = Some (d2, s2, a2)
    /\ s2 = map (fun v => v + c) s1
    /\ Forall2 Qeq a1 a2.
Proof.
  intros Halive1 Halive2 Hc1 Hc2 Hshift.
  rewrite (convert_data_run sm1 Halive1 Hc1), (convert_data_run sm2 Halive2 Hc2).
  do 6 eexists. split; [reflexivity|]. split; [reflexivity|].
  rewrite Hshift, resample_map by apply Hc1.
  split; [reflexivity|].
  unfold resample. rewrite model_t_idx_eq.
  unfold derived_accelerations, central_differences.
  cbn [map seq nth app Nat.add Nat.sub].
  repeat (apply Forall2_cons; [unfold Qdiv; ring|]). apply Forall2_nil.
Qed.

(** X16: for each of the ten MPC steps [model_t_idx] holds an index within
    the 33 samples whose time stamp is nearest to the step, and the earliest
    such index. *)
Theorem model_t_idx_nearest (k i : nat) :
  (k < 10)%nat -> (i < 33)%nat ->
  let chosen := nth k model_t_idx 0%nat in
  let distance := fun j => Qabs (inject_Z (Z.of_nat k) - nth j model_t 0) in
  (chosen < 33)%nat
  /\ distance chosen <= distance i
  /\ ((i < chosen)%nat -> distance chosen < distance i).
Proof.
  intros Hk Hi. cbv zeta.
  assert (Hall :
    forallb (fun k =>
      forallb (fun i =>
        let chosen := nth k model_t_idx 0%nat in
        let distance :=
          fun j => Qabs (inject_Z (Z.of_nat k) - nth j model_t 0) in
        (chosen <? 33)%nat
        && Qle_bool (distance chosen) (distance i)
        && (negb (i <? chosen)%nat
            || negb (Qle_bool (distance i) (distance chosen))))
        (seq 0 33)) (seq 0 10) = true) by (vm_compute; reflexivity).
  rewrite forallb_forall in Hall.
  specialize (Hall k ltac:(apply in_seq; lia)).
  rewrite forallb_forall in Hall.
  specialize (Hall i ltac:(apply in_seq; lia)). cbv zeta in Hall.
  apply andb_prop in Hall. destruct Hall as [Hall Hstrict].
  apply andb_prop in Hall. destruct Hall as [Hrange Hle].
  split; [apply Nat.ltb_lt; exact Hrange|].
  split; [apply Qle_bool_iff; exact Hle|].
  intros Hlt. apply Qnot_le_lt. intros Hback.
  apply Qle_bool_iff in Hback. rewrite Hback in Hstrict.
  apply Nat.ltb_lt in Hlt. rewrite Hlt in Hstrict. discriminate.
Qed.

(** ** The speed-camera bookkeeping and the published message *)

Section SpeedCamera.

Context {M MM F Sol : Type}.
Context {MpcI : LongMpc.Interface M Sol}.
Context {ModelI : LongMpcModel.Interface MM}.
Context {FcwI : FCW.Interface F Sol}.
Context {Ext : Externals}.

Lemma update_speed_map_ok (m m' : SpeedMap) (env : Environment) :
  update_speed_map m env = Some m' -> speed_map_ok m -> speed_map_ok m'.
Proof.
  unfold update_speed_map, speed_map_ok.
  intros Hstep (Hmap & Hzero & Hc1 & Hc2 & Hc3 & Hcounter & Hcheck).
  destruct (OpkrMapEnable env); [|injection Hstep as <-; tauto].
  destruct (target_speed_map_counter_check m) eqn:Echeck; cbn [Bool.eqb andb] in Hstep.
  2: destruct (50 + target_speed_map_counter1 m
               <=? target_speed_map_counter m + 1)%Z eqn:E50;
       cbn [andb] in Hstep.
  1: rewrite andb_false_r in Hstep.
  all: repeat match type of Hstep with
       | context [(?a <=? ?b)%Z] => destruct (Z.leb_spec a b)
       | context [(?a <? ?b)%Z] => destruct (Z.ltb_spec a b)
       end.
  all: repeat match type of Hstep with
       | context [match ?o with Some _ => _ | None => _ end] =>
           destruct o; try discriminate
       end.
  all: cbn [andb] in Hstep.
  all: repeat match type of Hstep with
       | context [(?a <=? ?b)%Z] => destruct (Z.leb_spec a b)
       | context [(?a <? ?b)%Z] => destruct (Z.ltb_spec a b)
       end.
  all: try discriminate.
  all: injection Hstep as <-;
       cbn [target_speed_map target_speed_map_counter
            target_speed_map_counter_check target_speed_map_counter1
            target_speed_map_counter2 target_speed_map_counter3
            target_speed_map_dist target_speed_map_block
            target_speed_map_sign].
  all: try apply Z.leb_le in E50; try apply Z.leb_gt in E50.
  all: repeat split; try lia; try tauto; try (intros; lia); try discriminate.
  all: try (specialize (Hcheck eq_refl)); try lia.
Qed.

Lemma update_speed_map_step (self self' : Planner M MM F) (sm : SubMaster)
  (CP : CarParams) (env : Environment) :
  update self sm CP env = Some self' ->
  update_speed_map (speed_map self) env = Some (speed_map self').
Proof.
  unfold update. cbv zeta.
  destruct (update_speed_map _ _) as [speed_map'|]; [|discriminate].
  destruct (engaged_normal _ _ _).
  - destruct (limit_accel_in_turns _ _ _ _) as [accel_limits_turns|];
      [|discriminate].
    destruct (speed_smoother _ _ _ _ _ _ _ _) as [v_cruise' a_cruise'].
    destruct (convert_data sm) as [[[distances speeds] accelerations]|];
      [|discriminate].
    destruct (choose_solution _ _ _ _) as [mid|] eqn:Hchoose; [|discriminate].
    destruct (FCW.update _ _) as [checker warned].
    intros H; injection H as <-.
    pose proof (choose_solution_frame _ _ _ _ _ Hchoose) as Hframe.
    cbn in Hframe |- *. f_equal. symmetry. tauto.
  - destruct (convert_data sm) as [[[distances speeds] accelerations]|];
      [|discriminate].
    destruct (choose_solution _ _ _ _) as [mid|] eqn:Hchoose; [|discriminate].
    destruct (FCW.update _ _) as [checker warned].
    intros H; injection H as <-.
    pose proof (choose_solution_frame _ _ _ _ _ Hchoose) as Hframe.
    cbn in Hframe |- *. f_equal. symmetry. tauto.
Qed.

Lemma update_keeps_speed_map_ok (self self' : Planner M MM F) (sm : SubMaster)
  (CP : CarParams) (env : Environment) :
  update self sm CP env = Some self' ->
  speed_map_ok (speed_map self) -> speed_map_ok (speed_map self').
Proof.
  intros Hrun. apply update_speed_map_step in Hrun.
  exact (update_speed_map_ok _ _ _ Hrun).
Qed.

Ltac split_camera_branches :=
  match goal with
  | |- context [match ?triple with (_, _) => _ end] =>
      destruct triple as [[camera camera_dist] sign] eqn:Ebranch
  end.

Lemma publish_keeps_speed_map_ok (self : Planner M MM F) (sm : SubMaster)
  (logMonoTime : Z) :
  speed_map_ok (speed_map self) ->
  speed_map_ok (speed_map (fst (publish self sm logMonoTime))).
Proof.
  unfold publish. cbv zeta. split_camera_branches. cbn. exact (fun H => H).
Qed.

(** X17: the speed-camera bookkeeping keeps its shape (stored speed zero or
    above 29, zero speed with zero distance and no block, counters within
    their windows, the polling counter at most 74 plus the 0-or-80 offset)
    from construction, through every cycle of update and publish, and along
    any run. *)
Theorem speed_camera_bookkeeping :
  (forall (CP : CarParams) (offset : Z),
      speed_map_ok (speed_map (Planner_init CP offset : Planner M MM F)))
  /\ (forall (self self' : Planner M MM F) (sm : SubMaster) (CP : CarParams)
             (env : Environment) (logMonoTime : Z) (plan : LongitudinalPlan),
        cycle self sm CP env logMonoTime = Some (self', plan) ->
        speed_map_ok (speed_map self) -> speed_map_ok (speed_map self'))
  /\ (forall (inputs : list (SubMaster * CarParams * Environment))
             (CP0 : CarParams) (offset : Z) (self' : Planner M MM F),
        run (Planner_init CP0 offset) inputs = Some self' ->
        speed_map_ok (speed_map self')).
Proof.
  assert (Hinit : forall (CP : CarParams) (offset : Z),
             speed_map_ok (speed_map (Planner_init CP offset : Planner M MM F))).
  { intros CP offset. unfold speed_map_ok. cbn.
    repeat split; try lia; auto. }
  split; [exact Hinit|]. split.
  - intros self self' sm CP env logMonoTime plan Hcycle Hok.
    unfold cycle in Hcycle.
    destruct (update self sm CP env) as [mid|] eqn:Hrun; [|discriminate].
    injection Hcycle as Hpub.
    replace self' with (fst (publish mid sm logMonoTime))
      by (rewrite Hpub; reflexivity).
    apply publish_keeps_speed_map_ok.
    exact (update_keeps_speed_map_ok _ _ _ _ _ Hrun Hok).
  - intros inputs CP0 offset self'.
    generalize (Hinit CP0 offset).
    generalize (Planner_init CP0 offset : Planner M MM F).
    induction inputs as [|[[sm CP] env] rest IH]; intros self Hok Hrun.
    + injection Hrun as <-. exact Hok.
    + cbn [run] in Hrun.
      destruct (update self sm CP env) as [next|] eqn:Hstep; [|discriminate].
      apply (IH next); [|exact Hrun].
      exact (update_keeps_speed_map_ok _ _ _ _ _ Hstep Hok).
Qed.

(** X18: the published camera speed and distance are both zero whenever the
    stored speed is at most 29, and otherwise either both zero or the stored
    speed and distance; the sign flag is only raised by a publish that
    reports the stored speed. *)
Theorem publish_camera_fields (self : Planner M MM F) (sm : SubMaster)
  (logMonoTime : Z) :
  let m := speed_map self in
  let plan := snd (publish self sm logMonoTime) in
  ((target_speed_map m <= 29)%Z ->
   targetSpeedCamera plan = 0 /\ targetSpeedCameraDist plan = 0)
  /\ ((targetSpeedCamera plan = 0 /\ targetSpeedCameraDist plan = 0)
      \/ ((29 < target_speed_map m)%Z
          /\ targetSpeedCamera plan = inject_Z (target_speed_map m)
          /\ targetSpeedCameraDist plan = inject_Z (target_speed_map_dist m)))
  /\ (target_speed_map_sign (speed_map (fst (publish self sm logMonoTime)))
      = true ->
      target_speed_map_sign m = true
      \/ targetSpeedCamera plan = inject_Z (target_speed_map m)).
Proof.
  unfold publish. cbv zeta.
  destruct (Z.ltb_spec 29 (target_speed_map (speed_map self))) as [Hhigh|Hlow];
    cbn [andb].
  - destruct (Py.lt _ _); [cbn; split; [lia|split; [right|]]; auto|].
    destruct (Py.ge _ _ && target_speed_map_block (speed_map self));
      [cbn; split; [lia|split; [right|]]; auto|].
    destruct (target_speed_map_sign (speed_map self)) eqn:Esign;
      cbn; rewrite ?Esign; (split; [lia|split; [auto|auto]]).
  - cbn. split; [auto|]. split; [left; auto|]. auto.
Qed.

Ltac planner_projections :=
  cbn [fst self_CP mpc1 mpc2 mpc_model v_acc_start a_acc_start v_acc_next
       a_acc_next v_acc v_acc_future a_acc v_cruise a_cruise
       longitudinalPlanSource fcw_checker fcw first_loop speed_map
       tartget_speed_offset vego target_speed_map target_speed_map_counter
       target_speed_map_counter_check target_speed_map_counter1
       target_speed_map_counter2 target_speed_map_counter3
       target_speed_map_dist target_speed_map_block target_speed_map_sign].

(** X19: publishing twice on the same snapshot sends the same message and
    leaves the same planner as publishing once. *)
Theorem publish_idempotent (self : Planner M MM F) (sm : SubMaster)
  (logMonoTime : Z) :
  publish (fst (publish self sm logMonoTime)) sm logMonoTime
  = publish self sm logMonoTime.
Proof.
  unfold publish. cbv zeta.
  destruct (29 <? target_speed_map (speed_map self))%Z eqn:Ehigh; cbn [andb].
  - destruct (Py.lt _ _) eqn:Enear.
    + planner_projections. rewrite ?Ehigh, ?Enear. reflexivity.
    + destruct (Py.ge _ _) eqn:Efar; cbn [andb].
      * destruct (target_speed_map_block (speed_map self)) eqn:Eblock.
        -- planner_projections. rewrite ?Ehigh, ?Enear, ?Efar, ?Eblock.
           reflexivity.
        -- destruct (target_speed_map_sign (speed_map self)) eqn:Esign;
             planner_projections;
             rewrite ?Ehigh, ?Enear, ?Efar, ?Eblock, ?Esign; reflexivity.
      * destruct (target_speed_map_sign (speed_map self)) eqn:Esign;
          planner_projections; rewrite ?Ehigh, ?Enear, ?Efar, ?Esign;
          reflexivity.
  - planner_projections. rewrite ?Ehigh. reflexivity.
Qed.

End SpeedCamera.

(** ** The further properties on concrete cycles *)

Lemma limit_accel_in_turns_on_cruise_limits_witness :
  exists upper,
    limit_accel_in_turns 10 0 (calc_cruise_accel_limits 10 true) Canned.CP
    = Some (fst (calc_cruise_accel_limits 10 true), upper)
    /\ 0 <= upper
    /\ upper = snd (calc_cruise_accel_limits 10 true).
Proof.
  assert (Hgeo : ~ steerRatio Canned.CP * wheelbase Canned.CP == 0)
    by (intros H; discriminate H).
  destruct (limit_accel_in_turns_on_cruise_limits (Ext := Canned.Ext)
              Qsqrt_nonneg Qsqrt_exact 10 0 true Canned.CP Hgeo)
    as (upper & Hrun & Hpos & Hzero).
  exists upper. split; [exact Hrun|]. split; [exact Hpos|].
  apply Hzero. reflexivity.
Defined.


Lemma update_cruise_speed_nonneg_witness :
  exists self',
    update Canned.planner1 (Canned.cruising false Canned.slow_lead)
      Canned.CP Canned.env = Some self'
    /\ 0 <= v_cruise self'.
Proof.
  destruct (update Canned.planner1 (Canned.cruising false Canned.slow_lead)
              Canned.CP Canned.env) as [self'|] eqn:Hrun;
    [|vm_compute in Hrun; discriminate].
  exists self'. split; [reflexivity|].
  exact (update_cruise_speed_nonneg Canned.planner1 self'
           (Canned.cruising false Canned.slow_lead) Canned.CP Canned.env
           Hrun eq_refl).
Defined.

Lemma update_fallback_resets_witness :
  exists self',
    update Canned.planner0 (Canned.cruising false Canned.slow_lead)
      Canned.CP Canned.env = Some self'
    /\ v_acc_start self' = 10 /\ a_acc_start self' <= 0.
Proof.
  destruct (update Canned.planner0 (Canned.cruising false Canned.slow_lead)
              Canned.CP Canned.env) as [self'|] eqn:Hrun;
    [|vm_compute in Hrun; discriminate].
  destruct (update_fallback_resets Canned.planner0 self'
              (Canned.cruising false Canned.slow_lead) Canned.CP Canned.env
              Hrun (or_intror (or_introl eq_refl)))
    as (Hv & _ & _ & _ & _ & Ha).
  exists self'. split; [reflexivity|]. split; [exact Hv | exact (Ha eq_refl)].
Defined.

Lemma update_disabled_extrapolates_witness :
  exists self',
    update Canned.planner0 Canned.idle Canned.CP Canned.env = Some self'
    /\ v_acc self' = 10
    /\ v_acc_next self' == 10 + 0.05 * Py.min2 0.5 0.0.
Proof.
  destruct (update Canned.planner0 Canned.idle Canned.CP Canned.env)
    as [self'|] eqn:Hrun; [|vm_compute in Hrun; discriminate].
  destruct (update_disabled_extrapolates Canned.planner0 self' Canned.idle
              Canned.CP Canned.env Hrun eq_refl)
    as (Hv & _ & _ & Hnext).
  exists self'. split; [reflexivity|]. split; [exact Hv | exact Hnext].
Defined.


Lemma cruise_setpoint_capped_witness :
  cruise_setpoint (Canned.cruising false Canned.slow_lead) Canned.CP
  <= V_CRUISE_MAX * KPH_TO_MS CV.
Proof.
  assert (Hfactor : 0 <= KPH_TO_MS (CV (Externals := Canned.Ext)))
    by discriminate.
  exact (proj1 (cruise_setpoint_capped (M := Canned.Mpc) (MM := Canned.Model)
                  (F := unit)
                  (Canned.cruising false Canned.slow_lead) Canned.CP Hfactor)).
Defined.

Lemma run_plan_source_known_witness :
  exists self' c,
    run (Planner_init Canned.CP 0)
        [(Canned.cruising false Canned.slow_lead, Canned.CP, Canned.env);
         (Canned.idle, Canned.CP, Canned.env)] = Some self'
    /\ longitudinalPlanSource self' = label c.
Proof.
  destruct (run (Planner_init Canned.CP 0)
              [(Canned.cruising false Canned.slow_lead, Canned.CP, Canned.env);
               (Canned.idle, Canned.CP, Canned.env)])
    as [self'|] eqn:Hrun; [|vm_compute in Hrun; discriminate].
  destruct (run_plan_source_known _ Canned.CP 0%Z self' Hrun) as [c Hc].
  exists self', c. split; [reflexivity | exact Hc].
Defined.


Lemma choose_solution_idempotent_witness :
  exists self',
    choose_solution Canned.planner1 20 true false = Some self'
    /\ choose_solution self' 20 true false = Some self'.
Proof.
  destruct (choose_solution Canned.planner1 20 true false)
    as [self'|] eqn:Hrun; [|vm_compute in Hrun; discriminate].
  exists self'. split; [reflexivity|].
  exact (choose_solution_idempotent Canned.planner1 self' 20 true false Hrun).
Defined.

Lemma convert_data_fails_iff_witness :
  convert_data Canned.short_trajectory = None.
Proof.
  apply (proj2 (convert_data_fails_iff Canned.short_trajectory)).
  split; [reflexivity|]. split; [discriminate|].
  left. cbn. lia.
Defined.

Lemma convert_data_offset_invariant_witness :
  exists d1 s1 a1 d2 s2 a2,
    convert_data (Canned.cruising false Canned.no_lead) = Some (d1, s1, a1)
    /\ convert_data Canned.faster = Some (d2, s2, a2)
    /\ Forall2 Qeq a1 a2.
Proof.
  assert (Hcarries : carries_samples (Canned.cruising false Canned.no_lead))
    by (split; vm_compute; lia).
  assert (Hcarries' : carries_samples Canned.faster)
    by (split; vm_compute; lia).
  destruct (convert_data_offset_invariant
              (Canned.cruising false Canned.no_lead) Canned.faster 1
              eq_refl eq_refl Hcarries Hcarries' eq_refl)
    as (d1 & s1 & a1 & d2 & s2 & a2 & H1 & H2 & _ & Ha).
  exists d1, s1, a1, d2, s2, a2. auto.
Defined.

Lemma model_t_idx_nearest_witness :
  (nth 3 model_t_idx 0 < 33)%nat
  /\ Qabs (inject_Z 3 - nth (nth 3 model_t_idx 0%nat) model_t 0)
     <= Qabs (inject_Z 3 - nth 17 model_t 0).
Proof.
  destruct (model_t_idx_nearest 3 17 ltac:(lia) ltac:(lia)) as (Hr & Hle & _).
  split; [exact Hr | exact Hle].
Defined.

Lemma speed_camera_bookkeeping_witness :
  exists self',
    run (Planner_init Canned.CP 0)
        [(Canned.cruising false Canned.slow_lead, Canned.CP, Canned.env);
         (Canned.idle, Canned.CP, Canned.env)] = Some self'
    /\ speed_map_ok (speed_map self').
Proof.
  destruct (run (Planner_init Canned.CP 0)
              [(Canned.cruising false Canned.slow_lead, Canned.CP, Canned.env);
               (Canned.idle, Canned.CP, Canned.env)])
    as [self'|] eqn:Hrun; [|vm_compute in Hrun; discriminate].
  exists self'. split; [reflexivity|].
  exact (proj2 (proj2 speed_camera_bookkeeping) _ Canned.CP 0%Z self' Hrun).
Defined.

Lemma publish_camera_fields_witness :
  targetSpeedCamera (snd (publish Canned.planner0 Canned.idle 0)) = 0
  /\ targetSpeedCameraDist (snd (publish Canned.planner0 Canned.idle 0)) = 0.
Proof.
  apply (proj1 (publish_camera_fields Canned.planner0 Canned.idle 0%Z)).
  cbn. lia.
Defined.
